(** * DarkFilterThresholdingCuda: the thresholding stage of the SUPRA pipeline

    A shallow embedding of [src/SupraLib/Processing/DarkFilterThresholdingCuda.cu]:
    the per-voxel kernel [processKernel], the launch that [process] configures,
    and the stage driver [process] itself with its containers and streams.

    Numbers are modelled exactly.  Integer samples are [Z] with their ranges
    written out, [unsigned int] and [size_t] arithmetic wraps at [2^32] and
    [2^64], and floating-point values are the IEEE-754 values of the Standard
    Library's [SpecFloat] (binary32 for [float], binary64 for [double]). *)

From Stdlib Require Import ZArith Lia Bool Eqdep_dec.
From Stdlib Require Import Floats.SpecFloat.
From stdpp Require Import base option list gmap.

Local Open Scope Z_scope.

(** ** Floating point *)

(** [float] is IEEE binary32 and [double] is IEEE binary64. *)
Definition prec32 : Z := 24.
Definition emax32 : Z := 128.
Definition prec64 : Z := 53.
Definition emax64 : Z := 1024.

(** Modelled from the spec: [DarkFilterThresholdingCuda::WorkType] is declared
    in [DarkFilterThresholdingCuda.h], which is not part of the sources at
    hand.  The specification calls it "a single fixed wide numeric type
    (floating point ...)" that holds every sample type without loss; the
    instantiated sample types top out at [float], so it is taken as binary32. *)
Definition WorkType : Set := spec_float.

Definition double : Set := spec_float.

(** [(WorkType)0] *)
Definition WorkType_zero : WorkType := S754_zero false.

(** [a >= b] on floats: false as soon as one side is NaN. *)
Definition SFgeb (a b : spec_float) : bool :=
  match SFcompare a b with
  | Some Gt | Some Eq => true
  | _ => false
  end.

Definition is_nan (f : spec_float) : bool :=
  match f with
  | S754_nan => true
  | _ => false
  end.

(** Conversion of an integer to [float]: round to nearest even, exact for
    magnitudes below [2^24]. *)
Definition float_of_Z (z : Z) : spec_float :=
  binary_normalize prec32 emax32 z 0 false.

(** Conversion of a [float] to an integer: the fraction is discarded
    (truncation toward zero).  NaN and the infinities have no integer value in
    C++; they are mapped to 0 here and never reach this conversion from
    [clampCast] applied to a kernel value. *)
Definition Z_of_float (f : spec_float) : Z :=
  match f with
  | S754_finite s m e => cond_Zopp s (Z.shiftl (Z.pos m) e)
  | _ => 0
  end.

(** [static_cast<WorkType>(threshold)] for a [double] threshold: rounding to
    binary32, overflowing to an infinity. *)
Definition double_to_WorkType (d : double) : WorkType :=
  match d with
  | S754_finite s m e => binary_round prec32 emax32 s m e
  | _ => d
  end.

(** ** Sample types *)

(** The three sample types the stage is instantiated with. *)
Inductive SampleType : Set :=
  | T_uint8_t
  | T_int16_t
  | T_float.

#[export] Instance SampleType_eq_dec : EqDecision SampleType.
Proof. solve_decision. Defined.

(** Values of a sample type. *)
Definition sample (T : SampleType) : Set :=
  match T with
  | T_uint8_t => Z
  | T_int16_t => Z
  | T_float => spec_float
  end.

(** [sizeof(T)] *)
Definition sizeof (T : SampleType) : Z :=
  match T with
  | T_uint8_t => 1
  | T_int16_t => 2
  | T_float => 4
  end.

(** Well-formed samples: integers within the range of their type, floats in
    canonical binary32 form. *)
Definition sample_ok (T : SampleType) : sample T -> bool :=
  match T with
  | T_uint8_t => fun v => (0 <=? v) && (v <=? 255)
  | T_int16_t => fun v => (-32768 <=? v) && (v <=? 32767)
  | T_float => fun v => valid_binary prec32 emax32 v
  end.

(** The implicit conversion [WorkType inPixel = inputBuffer[...]]. *)
Definition to_WorkType (T : SampleType) : sample T -> WorkType :=
  match T with
  | T_uint8_t => float_of_Z
  | T_int16_t => float_of_Z
  | T_float => fun v => v
  end.

(** [static_cast<T>(x)] from the working type. *)
Definition from_WorkType (T : SampleType) : WorkType -> sample T :=
  match T with
  | T_uint8_t => Z_of_float
  | T_int16_t => Z_of_float
  | T_float => fun x => x
  end.

(** The representable range of a sample type (for [float], its finite range). *)
Definition limit_min (T : SampleType) : sample T :=
  match T with
  | T_uint8_t => 0
  | T_int16_t => -32768
  | T_float => SFopp (SFmax_float prec32 emax32)
  end.

Definition limit_max (T : SampleType) : sample T :=
  match T with
  | T_uint8_t => 255
  | T_int16_t => 32767
  | T_float => SFmax_float prec32 emax32
  end.

(** Zero in a sample type. *)
Definition sample_zero (T : SampleType) : sample T :=
  match T with
  | T_uint8_t => 0
  | T_int16_t => 0
  | T_float => S754_zero false
  end.

(** Modelled from the spec: [clampCast] is the helper of the utilities header,
    which is not part of the sources at hand.  The specification describes it
    as "a pure function mapping a Work Type value to an output sample type,
    clamping to the representable range of the output type rather than
    wrapping or producing undefined results on overflow". *)
Definition clampCast (T : SampleType) (x : WorkType) : sample T :=
  let lo := to_WorkType T (limit_min T) in
  let hi := to_WorkType T (limit_max T) in
  from_WorkType T (if SFltb x lo then lo else if SFltb hi x then hi else x).

(** ** The per-voxel operation

    Lines 51-66 of [processKernel]: widen, threshold on the magnitude, narrow
    with clamping. *)
Definition threshold_value (threshold inPixel : WorkType) : WorkType :=
  if SFgeb (SFabs inPixel) threshold then inPixel else WorkType_zero.

Definition threshold_pixel (InputType OutputType : SampleType)
    (threshold : WorkType) (v : sample InputType) : sample OutputType :=
  let inPixel := to_WorkType InputType v in
  clampCast OutputType (threshold_value threshold inPixel).

(** ** Machine integers and geometry *)

(** [unsigned int] and [size_t] arithmetic wraps. *)
Definition u32 (z : Z) : Z := z mod 2 ^ 32.
Definition size_t (z : Z) : Z := z mod 2 ^ 64.

(** [vec3s], a triple of [size_t]. *)
Record vec3s : Set := Vec3s { vec_x : Z; vec_y : Z; vec_z : Z }.

(** [dim3], a triple of [unsigned int]. *)
Record dim3 : Set := Dim3 { dim_x : Z; dim_y : Z; dim_z : Z }.

(** Componentwise [p < size]. *)
Definition vec3s_lt (p size : vec3s) : bool :=
  (vec_x p <? vec_x size) && (vec_y p <? vec_y size) && (vec_z p <? vec_z size).

Definition vec3s_le (p q : vec3s) : bool :=
  (vec_x p <=? vec_x q) && (vec_y p <=? vec_y q) && (vec_z p <=? vec_z q).

Definition vec3s_add (p q : vec3s) : vec3s :=
  Vec3s (size_t (vec_x p + vec_x q)) (size_t (vec_y p + vec_y q))
        (size_t (vec_z p + vec_z q)).

Definition vec3s_sub (p q : vec3s) : vec3s :=
  Vec3s (size_t (vec_x p - vec_x q)) (size_t (vec_y p - vec_y q))
        (size_t (vec_z p - vec_z q)).

(** Number of voxels of a geometry, as [width*height*depth] computes it. *)
Definition volume (size : vec3s) : Z :=
  size_t (vec_x size * vec_y size * vec_z size).

(** ** Memory accesses

    Device buffers are lists; an access outside a buffer is a fault ([None]).
    Each thread reports the accesses it performed. *)
Inductive Access : Set :=
  | GlobalRead (i : Z)
  | SharedWrite (i : Z)
  | SharedRead (i : Z)
  | GlobalWrite (i : Z).

Definition load {A} (buf : list A) (i : Z) : option A :=
  buf !! Z.to_nat i.

Definition store {A} (buf : list A) (i : Z) (v : A) : option (list A) :=
  if decide (Z.to_nat i < length buf)%nat
  then Some (<[Z.to_nat i := v]> buf)
  else None.

(** Modelled from the spec: the accessors of [utilities/Buffer.h] are not part
    of the sources at hand.  The direct accessor "computes the linear offset
    [x + y*width + z*width*height]". *)
Definition Buffer3_offset (size p : vec3s) : Z :=
  size_t (vec_x p + vec_y p * vec_x size + vec_z p * vec_x size * vec_y size).

(** [outputBuffer[p] = v] *)
Definition Buffer3_set {A} (buf : list A) (size p : vec3s) (v : A)
    : option (list A * list Access) :=
  buf' ← store buf (Buffer3_offset size p) v;
  Some (buf', [GlobalWrite (Buffer3_offset size p)]).

(** Modelled from the spec: the cached accessor "first cooperatively copies the
    tile's footprint from the backing buffer into a scratch buffer sized
    exactly to the tile, then serves subsequent reads for coordinates inside
    that tile from scratch rather than backing storage", and "must clip its
    cooperative copy to the intersection of tile footprint and volume extent".
    The tile extent is the block shape, so each thread of the block owns the
    cell at its [threadIdx].  A scratch cell that was never filled is [None];
    reading it is a fault. *)
Record CachedBuffer3 (A : Type) : Type := MkCachedBuffer3 {
  m_buffer : list A;
  m_size : vec3s;
  m_cacheSize : vec3s;
  m_cacheOffset : vec3s
}.
Arguments MkCachedBuffer3 {A}.
Arguments m_buffer {A}.
Arguments m_size {A}.
Arguments m_cacheSize {A}.
Arguments m_cacheOffset {A}.

(** The copy phase of the constructor, for the thread at [threadIdx]. *)
Definition CachedBuffer3_fill {A} (b : CachedBuffer3 A) (threadIdx : dim3)
    (cache : list (option A)) : option (list (option A) * list Access) :=
  let c := Vec3s (dim_x threadIdx) (dim_y threadIdx) (dim_z threadIdx) in
  let g := vec3s_add (m_cacheOffset b) c in
  if vec3s_lt c (m_cacheSize b) && vec3s_lt g (m_size b) then
    v ← load (m_buffer b) (Buffer3_offset (m_size b) g);
    cache' ← store cache (Buffer3_offset (m_cacheSize b) c) (Some v);
    Some (cache', [GlobalRead (Buffer3_offset (m_size b) g);
                   SharedWrite (Buffer3_offset (m_cacheSize b) c)])
  else Some (cache, []).

(** [inputBuffer[p]], after the barrier. *)
Definition CachedBuffer3_get {A} (b : CachedBuffer3 A)
    (cache : list (option A)) (p : vec3s) : option (A * list Access) :=
  let c := vec3s_sub p (m_cacheOffset b) in
  if vec3s_le (m_cacheOffset b) p && vec3s_lt c (m_cacheSize b) then
    match load cache (Buffer3_offset (m_cacheSize b) c) with
    | Some (Some v) => Some (v, [SharedRead (Buffer3_offset (m_cacheSize b) c)])
    | _ => None
    end
  else
    v ← load (m_buffer b) (Buffer3_offset (m_size b) p);
    Some (v, [GlobalRead (Buffer3_offset (m_size b) p)]).

(** ** The kernel, one thread at a time *)

(** The built-in variables of a thread. *)
Record ThreadCtx : Set := MkThreadCtx {
  blockDim : dim3;
  blockIdx : dim3;
  threadIdx : dim3
}.

(** Lines 31-33: the global coordinates, computed in [unsigned int]. *)
Definition thread_coord (t : ThreadCtx) : vec3s :=
  Vec3s (u32 (dim_x (blockDim t) * dim_x (blockIdx t) + dim_x (threadIdx t)))
        (u32 (dim_y (blockDim t) * dim_y (blockIdx t) + dim_y (threadIdx t)))
        (u32 (dim_z (blockDim t) * dim_z (blockIdx t) + dim_z (threadIdx t))).

(** Lines 36-38: the cached accessor over the input image. *)
Definition inputBuffer_of {A} (t : ThreadCtx) (inputImage : list A)
    (size : vec3s) : CachedBuffer3 A :=
  MkCachedBuffer3 inputImage size
    (Vec3s (dim_x (blockDim t)) (dim_y (blockDim t)) (dim_z (blockDim t)))
    (Vec3s (u32 (dim_x (blockDim t) * dim_x (blockIdx t)))
           (u32 (dim_y (blockDim t) * dim_y (blockIdx t)))
           (u32 (dim_z (blockDim t) * dim_z (blockIdx t)))).

(** Lines 35-39, up to the barrier at the end of the accessor's construction. *)
Definition processKernel_setup (InputType : SampleType) (t : ThreadCtx)
    (inputImage : list (sample InputType)) (size : vec3s)
    (smem : list (option (sample InputType)))
    : option (list (option (sample InputType)) * list Access) :=
  CachedBuffer3_fill (inputBuffer_of t inputImage size) (threadIdx t) smem.

(** Lines 41-67, after the barrier. *)
Definition processKernel_body (InputType OutputType : SampleType)
    (t : ThreadCtx) (inputImage : list (sample InputType)) (size : vec3s)
    (threshold : WorkType) (smem : list (option (sample InputType)))
    (outputImage : list (sample OutputType))
    : option (list (sample OutputType) * list Access) :=
  let p := thread_coord t in
  let width := vec_x size in
  let height := vec_y size in
  let depth := vec_z size in
  if (vec_x p <? width) && (vec_y p <? height) && (vec_z p <? depth) then
    '(v, r) ← CachedBuffer3_get (inputBuffer_of t inputImage size) smem p;
    let inPixel := to_WorkType InputType v in
    let value :=
      if SFgeb (SFabs inPixel) threshold then inPixel else WorkType_zero in
    '(out, w) ← Buffer3_set outputImage size p (clampCast OutputType value);
    Some (out, r ++ w)
  else Some (outputImage, []).

(** ** A kernel launch *)

(** Sequencing of fallible steps over a list. *)
Fixpoint fold_opt {A S} (f : S -> A -> option S) (l : list A) (s : S)
    : option S :=
  match l with
  | [] => Some s
  | a :: l' =>
      match f s a with
      | Some s' => fold_opt f l' s'
      | None => None
      end
  end.

(** All indices below a [dim3] extent. *)
Definition dim3_coords (n : dim3) : list dim3 :=
  z ← seqZ 0 (dim_z n); y ← seqZ 0 (dim_y n); x ← seqZ 0 (dim_x n);
  [Dim3 x y z].

(** One block: fresh scratch memory of [sharedMemorySize] bytes, every thread
    runs up to the barrier, then every thread runs the rest. *)
Definition run_block (InputType OutputType : SampleType)
    (inputImage : list (sample InputType)) (size : vec3s)
    (threshold : WorkType) (blockDim : dim3) (sharedMemorySize : Z)
    (outputImage : list (sample OutputType)) (blockIdx : dim3)
    : option (list (sample OutputType)) :=
  let smem0 := replicate (Z.to_nat (sharedMemorySize / sizeof InputType)) None in
  smem ← fold_opt
    (fun sm tIdx =>
       fst <$> processKernel_setup InputType
                 (MkThreadCtx blockDim blockIdx tIdx) inputImage size sm)
    (dim3_coords blockDim) smem0;
  fold_opt
    (fun out tIdx =>
       fst <$> processKernel_body InputType OutputType
                 (MkThreadCtx blockDim blockIdx tIdx) inputImage size
                 threshold smem out)
    (dim3_coords blockDim) outputImage.

(** [processKernel<<<gridDim, blockDim, sharedMemorySize>>>(...)], run to
    completion. *)
Definition processKernel (InputType OutputType : SampleType)
    (gridDim blockDim : dim3) (sharedMemorySize : Z)
    (inputImage : list (sample InputType)) (size : vec3s)
    (threshold : WorkType) (outputImage : list (sample OutputType))
    : option (list (sample OutputType)) :=
  fold_opt
    (run_block InputType OutputType inputImage size threshold blockDim
       sharedMemorySize)
    (dim3_coords gridDim) outputImage.

(** ** Containers, streams and the object store *)

Inductive ContainerLocation : Set :=
  | LocationHost
  | LocationGpu
  | LocationBoth.

#[export] Instance ContainerLocation_eq_dec : EqDecision ContainerLocation.
Proof. solve_decision. Defined.

(** A CUDA stream is identified by a number. *)
Definition cudaStream_t : Set := nat.

(** Modelled from the spec: [Container<T>] is declared in a header that is not
    part of the sources at hand.  The specification gives it a residency tag
    ("host-only, accelerator-only, or both"), "an associated asynchronous
    execution queue" and a contiguous buffer whose length is its element
    count. *)
Record Container (T : SampleType) : Type := MkContainer {
  c_location : ContainerLocation;
  c_stream : cudaStream_t;
  c_buffer : list (sample T)
}.
Arguments MkContainer {T}.
Arguments c_location {T}.
Arguments c_stream {T}.
Arguments c_buffer {T}.

Definition isHost {T} (c : Container T) : bool :=
  bool_decide (c_location c = LocationHost).
Definition isGPU {T} (c : Container T) : bool :=
  bool_decide (c_location c = LocationGpu).
Definition isBoth {T} (c : Container T) : bool :=
  bool_decide (c_location c = LocationBoth).
Definition getStream {T} (c : Container T) : cudaStream_t := c_stream c.
Definition numel {T} (c : Container T) : Z := Z.of_nat (length (c_buffer c)).

(** Modelled from the spec: "[allocate(residency, queue, elementCount)] creates
    uninitialized storage of the requested residency bound to the given
    execution queue".  What the fresh storage holds is up to the allocator:
    [junk] stands for it. *)
Definition Container_alloc (T : SampleType) (location : ContainerLocation)
    (stream : cudaStream_t) (n : Z) (junk : nat -> sample T) : Container T :=
  MkContainer location stream (junk <$> seq 0 (Z.to_nat n)).

(** Modelled from the spec: "[migrate(targetResidency, sourceContainer)]
    creates a new container with the same logical content physically placed
    in the target residency" and "MUST preserve element values exactly"; the
    transfer is bound to the queue of the source. *)
Definition Container_copy {T} (location : ContainerLocation)
    (source : Container T) : Container T :=
  MkContainer location (c_stream source) (c_buffer source).

(** A container of some sample type, as the store holds it. *)
Definition AnyContainer : Type := { T : SampleType & Container T }.

(** A [shared_ptr] is the address of an object in the store. *)
Definition shared_ptr : Set := nat.

(** The arguments of one enqueued kernel launch; the device pointers are the
    addresses of the containers that own the buffers. *)
Record KernelLaunch : Set := MkKernelLaunch {
  k_InputType : SampleType;
  k_OutputType : SampleType;
  k_gridSize : dim3;
  k_blockSize : dim3;
  k_sharedMemorySize : Z;
  k_inputImage : shared_ptr;
  k_size : vec3s;
  k_threshold : WorkType;
  k_outputImage : shared_ptr
}.

(** What the driver did, in order. *)
Inductive Event : Set :=
  | EvMigrate (source target : shared_ptr)
  | EvAllocate (target : shared_ptr) (n : Z)
  | EvLaunch (stream : cudaStream_t) (k : KernelLaunch).

Record World : Type := MkWorld {
  objects : gmap shared_ptr AnyContainer;
  pending : list (cudaStream_t * KernelLaunch);
  events : list Event
}.

(** Typed access to the store. *)
Definition deref (T : SampleType) (objs : gmap shared_ptr AnyContainer)
    (p : shared_ptr) : option (Container T) :=
  match objs !! p with
  | Some (existT T' c) =>
      match decide (T' = T) with
      | left e => Some (eq_rect T' Container c T e)
      | right _ => None
      end
  | None => None
  end.

(** ** The driver's effects: a state and failure monad over the world *)

Definition M (A : Type) : Type := World -> option (A * World).

Definition ret {A} (a : A) : M A := fun w => Some (a, w).

Definition bind {A B} (m : M A) (f : A -> M B) : M B :=
  fun w =>
    match m w with
    | Some (a, w') => f a w'
    | None => None
    end.

Notation "'let*' x ':=' m 'in' k" := (bind m (fun x => k))
  (at level 10, x name, m at level 100, k at level 200).
Notation "m ;;; k" := (bind m (fun _ => k))
  (at level 100, k at level 200, right associativity).

(** [*p] for a pointer to a [Container<T>]. *)
Definition get_object (T : SampleType) (p : shared_ptr) : M (Container T) :=
  fun w =>
    match deref T (objects w) p with
    | Some c => Some (c, w)
    | None => None
    end.

(** [make_shared<Container<T>>(...)]: a new object at an unused address. *)
Definition make_shared {T} (c : Container T) : M shared_ptr :=
  fun w =>
    let p := fresh (dom (objects w)) in
    Some (p, MkWorld (<[p := existT T c]> (objects w)) (pending w) (events w)).

Definition emit (e : Event) : M unit :=
  fun w => Some (tt, MkWorld (objects w) (pending w) (events w ++ [e])).

(** [kernel<<<..., stream>>>(...)]: the launch is queued, not run. *)
Definition enqueue (stream : cudaStream_t) (k : KernelLaunch) : M unit :=
  fun w =>
    Some (tt, MkWorld (objects w) (pending w ++ [(stream, k)])
                (events w ++ [EvLaunch stream k])).

(** ** The stage driver

    [DarkFilterThresholdingCuda::process<InputType, OutputType>], lines 71-110. *)

(** Line 93: [dim3 blockSize(32, 4, 1)]. *)
Definition process_blockSize : dim3 := Dim3 32 4 1.

(** Lines 94-97: the grid, rounded up on each axis and cut to [unsigned int]. *)
Definition process_gridSize (size : vec3s) : dim3 :=
  let blockSize := process_blockSize in
  Dim3 (u32 (size_t (size_t (vec_x size + dim_x blockSize) - 1) / dim_x blockSize))
       (u32 (size_t (size_t (vec_y size + dim_y blockSize) - 1) / dim_y blockSize))
       (u32 (size_t (size_t (vec_z size + dim_z blockSize) - 1) / dim_z blockSize)).

(** Line 98: the scratch size in bytes. *)
Definition process_sharedMemorySize (InputType : SampleType) : Z :=
  let blockSize := process_blockSize in
  size_t (u32 (u32 (dim_x blockSize * dim_y blockSize) * dim_z blockSize)
          * sizeof InputType).

(** Line 90: [width*height*depth] in [size_t]. *)
Definition process_numel (size : vec3s) : Z :=
  let width := vec_x size in
  let height := vec_y size in
  let depth := vec_z size in
  size_t (size_t (width * height) * depth).

(** The driver itself.  [junk] is the content of the freshly allocated output
    storage.  Acceptance of the launch by the runtime (line 105) is not
    modelled: a launch is always accepted. *)
Definition process (InputType OutputType : SampleType)
    (junk : nat -> sample OutputType)
    (imageData : shared_ptr) (size : vec3s) (threshold : double)
    : M shared_ptr :=
  let* source := get_object InputType imageData in
  let* inImageData :=
    (if negb (isGPU source) && negb (isBoth source) then
       let* p := make_shared (Container_copy LocationGpu source) in
       emit (EvMigrate imageData p);;;
       ret p
     else ret imageData) in
  let* input := get_object InputType inImageData in
  let* outImageData :=
    make_shared (Container_alloc OutputType LocationGpu (getStream input)
                   (process_numel size) junk) in
  emit (EvAllocate outImageData (process_numel size));;;
  enqueue (getStream input)
    (MkKernelLaunch InputType OutputType (process_gridSize size)
       process_blockSize (process_sharedMemorySize InputType)
       inImageData size (double_to_WorkType threshold) outImageData);;;
  ret outImageData.

(** ** Running the queued work *)

(** One launch, run against the store: the output container's buffer is
    replaced by what the kernel leaves in it. *)
Definition run_launch (k : KernelLaunch) (objs : gmap shared_ptr AnyContainer)
    : option (gmap shared_ptr AnyContainer) :=
  input ← deref (k_InputType k) objs (k_inputImage k);
  output ← deref (k_OutputType k) objs (k_outputImage k);
  out ← processKernel (k_InputType k) (k_OutputType k)
          (k_gridSize k) (k_blockSize k) (k_sharedMemorySize k)
          (c_buffer input) (k_size k) (k_threshold k) (c_buffer output);
  Some (<[k_outputImage k :=
            existT (k_OutputType k)
              (MkContainer (c_location output) (c_stream output) out)]> objs).

(** The launches queued on [stream] run in the order they were queued; work
    queued on other streams stays queued. *)
Fixpoint drain_queue (stream : cudaStream_t)
    (q : list (cudaStream_t * KernelLaunch))
    (objs : gmap shared_ptr AnyContainer)
    : option (list (cudaStream_t * KernelLaunch) * gmap shared_ptr AnyContainer) :=
  match q with
  | [] => Some ([], objs)
  | (s, k) :: q' =>
      if decide (s = stream) then
        objs' ← run_launch k objs;
        drain_queue stream q' objs'
      else
        '(rest, objs') ← drain_queue stream q' objs;
        Some ((s, k) :: rest, objs')
  end.

(** The caller waits until [stream] has drained. *)
Definition drain (stream : cudaStream_t) : M unit :=
  fun w =>
    match drain_queue stream (pending w) (objects w) with
    | Some (rest, objs) => Some (tt, MkWorld objs rest (events w))
    | None => None
    end.

(** ** The stage as a whole *)

(** The launch that [process] configures, run to completion on given buffers. *)
Definition stage_kernel (InputType OutputType : SampleType)
    (inputImage : list (sample InputType)) (size : vec3s)
    (threshold : double) (outputImage : list (sample OutputType))
    : option (list (sample OutputType)) :=
  processKernel InputType OutputType (process_gridSize size) process_blockSize
    (process_sharedMemorySize InputType) inputImage size
    (double_to_WorkType threshold) outputImage.

(** [process] followed by the caller draining the stream of the input. *)
Definition process_and_drain (InputType OutputType : SampleType)
    (junk : nat -> sample OutputType)
    (imageData : shared_ptr) (size : vec3s) (threshold : double)
    : M shared_ptr :=
  let* source := get_object InputType imageData in
  let* outImageData := process InputType OutputType junk imageData size threshold in
  drain (getStream source);;;
  ret outImageData.

(** The input constraints of the stage: extents that fit [unsigned int], a
    voxel count that fits [size_t], and buffers of exactly that many
    elements. *)
Definition geometry_ok (size : vec3s) : Prop :=
  (0 <= vec_x size < 2 ^ 32) /\ (0 <= vec_y size < 2 ^ 32) /\
  (0 <= vec_z size < 2 ^ 32) /\
  vec_x size * vec_y size * vec_z size < 2 ^ 64.

Definition buffer_fits {A} (buf : list A) (size : vec3s) : Prop :=
  length buf = Z.to_nat (vec_x size * vec_y size * vec_z size).

Definition is_migrate (e : Event) : bool :=
  match e with
  | EvMigrate _ _ => true
  | _ => false
  end.

(** The number of [EvMigrate] events in a log. *)
Definition migrations (log : list Event) : nat :=
  length (List.filter is_migrate log).

(** The launch the driver enqueues. *)
Definition process_launch (InputType OutputType : SampleType)
    (inImageData : shared_ptr) (size : vec3s) (threshold : double)
    (outImageData : shared_ptr) : KernelLaunch :=
  MkKernelLaunch InputType OutputType (process_gridSize size)
    process_blockSize (process_sharedMemorySize InputType)
    inImageData size (double_to_WorkType threshold) outImageData.

(** The offset of the voxel [(x,y,z)], as a list index. *)
Definition voxel_index (size : vec3s) (x y z : Z) : nat :=
  Z.to_nat (Buffer3_offset size (Vec3s x y z)).

Definition in_volume (size : vec3s) (x y z : Z) : Prop :=
  (0 <= x < vec_x size) /\ (0 <= y < vec_y size) /\ (0 <= z < vec_z size).

(** ** Vocabulary of the proofs *)

(** A [double] with an integer value. *)
Definition double_of_Z (z : Z) : double :=
  binary_normalize prec64 emax64 z 0 false.

(** [f] holds on the [n] integers from [lo] on. *)
Fixpoint all_from (n : nat) (lo : Z) (f : Z -> bool) : bool :=
  match n with
  | O => true
  | S n' => f lo && all_from n' (lo + 1) f
  end.

(** An in-range integer sample survives widening and the clamped cast, and
    its widening is not NaN. *)
Definition roundtrip_check (T : SampleType) (v : Z) : bool :=
  match T with
  | T_uint8_t =>
      (@clampCast T_uint8_t (float_of_Z v) =? v) && negb (is_nan (float_of_Z v))
  | T_int16_t =>
      (@clampCast T_int16_t (float_of_Z v) =? v) && negb (is_nan (float_of_Z v))
  | T_float => true
  end.

(** [s'] comes from [s] by overwriting some elements, each with a value that
    [R] allows at its index. *)
Definition upd_rel {V} (R : nat -> V -> Prop) (s s' : list V) : Prop :=
  length s' = length s /\
  forall i, s' !! i = s !! i \/ exists v, s' !! i = Some v /\ R i v.

Definition dim3_vec (d : dim3) : vec3s := Vec3s (dim_x d) (dim_y d) (dim_z d).

(** The origin of the tile of block [bIdx], as the kernel computes it. *)
Definition tile_origin (bDim bIdx : dim3) : vec3s :=
  Vec3s (u32 (dim_x bDim * dim_x bIdx)) (u32 (dim_y bDim * dim_y bIdx))
        (u32 (dim_z bDim * dim_z bIdx)).

(** What a filled scratch cell holds, for the tile at origin [o]. *)
Definition cell_rel (InputType : SampleType)
    (inputImage : list (sample InputType)) (size : vec3s) (bDim : dim3)
    (o : vec3s) (ci : nat) (cell : option (sample InputType)) : Prop :=
  exists c v,
    cell = Some v /\
    (0 <= vec_x c /\ 0 <= vec_y c /\ 0 <= vec_z c) /\
    vec3s_lt c (dim3_vec bDim) = true /\
    ci = Z.to_nat (Buffer3_offset (dim3_vec bDim) c) /\
    vec3s_lt (vec3s_add o c) size = true /\
    load inputImage (Buffer3_offset size (vec3s_add o c)) = Some v.

(** What a written output element holds. *)
Definition out_rel (InputType OutputType : SampleType)
    (inputImage : list (sample InputType)) (threshold : WorkType)
    (i : nat) (v : sample OutputType) : Prop :=
  exists u, inputImage !! i = Some u /\
            v = threshold_pixel InputType OutputType threshold u.

(** The scratch cell that thread [tIdx] of block [bIdx] fills. *)
Definition fills (size : vec3s) (bDim bIdx tIdx : dim3) (i : nat) : Prop :=
  i = Z.to_nat (Buffer3_offset (dim3_vec bDim) (dim3_vec tIdx)) /\
  vec3s_lt (vec3s_add (tile_origin bDim bIdx) (dim3_vec tIdx)) size = true.

(** The output element that thread [tIdx] of block [bIdx] writes. *)
Definition writes (size : vec3s) (bDim bIdx tIdx : dim3) (i : nat) : Prop :=
  vec3s_lt (thread_coord (MkThreadCtx bDim bIdx tIdx)) size = true /\
  i = Z.to_nat (Buffer3_offset size (thread_coord (MkThreadCtx bDim bIdx tIdx))).

(** Every voxel of the volume is the coordinate of some thread of the grid. *)
Definition covers (size : vec3s) (bDim gDim : dim3) : Prop :=
  forall p, 0 <= vec_x p -> 0 <= vec_y p -> 0 <= vec_z p ->
    vec3s_lt p size = true ->
    exists bIdx tIdx,
      bIdx ∈ dim3_coords gDim /\ tIdx ∈ dim3_coords bDim /\
      thread_coord (MkThreadCtx bDim bIdx tIdx) = p.

(** ** Sample worlds *)

(** A world holding one input container at address 0 and nothing queued. *)
Definition world_of {T : SampleType} (c : Container T) : World :=
  MkWorld {[ 0%nat := existT T c ]} [] [].

Definition host_volume : Container T_int16_t :=
  @MkContainer T_int16_t LocationHost 5%nat [50; -5].

Definition device_volume : Container T_int16_t :=
  @MkContainer T_int16_t LocationGpu 9%nat [50; -5].

Definition negative_volume : Container T_float :=
  @MkContainer T_float LocationHost 5%nat [float_of_Z (-300)].

(** The stage run on a world that holds just [c]: the contents of the output
    container once the stream has drained. *)
Definition run_stage (InputType OutputType : SampleType)
    (junk : nat -> sample OutputType) (c : Container InputType)
    (size : vec3s) (threshold : double) : option (list (sample OutputType)) :=
  match process_and_drain InputType OutputType junk 0%nat size threshold
          (world_of c) with
  | Some (p, w') => c_buffer <$> deref OutputType (objects w') p
  | None => None
  end.

(** ** Schedules

    The order in which the hardware runs the blocks of a grid, and the threads
    of a block on either side of the barrier, is not fixed.  A schedule picks
    one. *)
Record Schedule : Type := MkSchedule {
  block_order : list dim3;
  copy_order : dim3 -> list dim3;
  work_order : dim3 -> list dim3
}.

(** Every block runs once, and in every block every thread runs once before
    the barrier and once after it. *)
Definition schedule_ok (gridDim blockDim : dim3) (s : Schedule) : Prop :=
  block_order s ≡ₚ dim3_coords gridDim /\
  forall b, copy_order s b ≡ₚ dim3_coords blockDim /\
            work_order s b ≡ₚ dim3_coords blockDim.

(** [run_block] with the threads taken in the order of the schedule. *)
Definition run_block_in_order (InputType OutputType : SampleType)
    (inputImage : list (sample InputType)) (size : vec3s)
    (threshold : WorkType) (blockDim : dim3) (sharedMemorySize : Z)
    (s : Schedule) (outputImage : list (sample OutputType)) (blockIdx : dim3)
    : option (list (sample OutputType)) :=
  let smem0 := replicate (Z.to_nat (sharedMemorySize / sizeof InputType)) None in
  smem ← fold_opt
    (fun sm tIdx =>
       fst <$> processKernel_setup InputType
                 (MkThreadCtx blockDim blockIdx tIdx) inputImage size sm)
    (copy_order s blockIdx) smem0;
  fold_opt
    (fun out tIdx =>
       fst <$> processKernel_body InputType OutputType
                 (MkThreadCtx blockDim blockIdx tIdx) inputImage size
                 threshold smem out)
    (work_order s blockIdx) outputImage.

(** [processKernel] with the blocks taken in the order of the schedule. *)
Definition processKernel_in_order (InputType OutputType : SampleType)
    (blockDim : dim3) (sharedMemorySize : Z) (s : Schedule)
    (inputImage : list (sample InputType)) (size : vec3s)
    (threshold : WorkType) (outputImage : list (sample OutputType))
    : option (list (sample OutputType)) :=
  fold_opt
    (run_block_in_order InputType OutputType inputImage size threshold
       blockDim sharedMemorySize s)
    (block_order s) outputImage.

(** The schedule that [processKernel] follows. *)
Definition row_major (gridDim blockDim : dim3) : Schedule :=
  MkSchedule (dim3_coords gridDim) (fun _ => dim3_coords blockDim)
    (fun _ => dim3_coords blockDim).

(** ** Two stages in a row

    A second stage applied to the output of a first one, both enqueued before
    the caller drains the stream once. *)
Definition process_twice (T1 T2 T3 : SampleType)
    (junk1 : nat -> sample T2) (junk2 : nat -> sample T3)
    (imageData : shared_ptr) (size : vec3s) (threshold1 threshold2 : double)
    : M (shared_ptr * shared_ptr) :=
  let* source := get_object T1 imageData in
  let* middle := process T1 T2 junk1 imageData size threshold1 in
  let* outImageData := process T2 T3 junk2 middle size threshold2 in
  drain (getStream source);;;
  ret (middle, outImageData).

(** The contents of the container at [p], whatever its other attributes. *)
Definition contents (T : SampleType) (w : World) (p : shared_ptr)
    : option (list (sample T)) :=
  c_buffer <$> deref T (objects w) p.

(** The schedule that runs everything backwards. *)
Definition backwards (gridDim blockDim : dim3) : Schedule :=
  MkSchedule (reverse (dim3_coords gridDim))
    (fun _ => reverse (dim3_coords blockDim))
    (fun _ => reverse (dim3_coords blockDim)).

(** * Properties of the numeric model *)

Lemma SFgeb_abs_nonpos (t x : WorkType) :
  SFleb t WorkType_zero = true -> is_nan x = false ->
  SFgeb (SFabs x) t = true.
Proof.
  destruct t as [st|st| |st mt et], x as [sx|sx| |sx mx ex];
    cbn; try discriminate; try reflexivity;
    destruct st; cbn; try discriminate; reflexivity.
Qed.

Lemma SFgeb_not_nan (a b : spec_float) :
  SFgeb a b = true -> is_nan a = false.
Proof. destruct a; [reflexivity..|discriminate|reflexivity]. Qed.

Lemma SFgeb_of_eq (a b : spec_float) :
  SFcompare a b = Some Eq -> SFgeb a b = true.
Proof. unfold SFgeb. intros ->. reflexivity. Qed.

Lemma SFltb_not_geb (a b : spec_float) :
  SFltb a b = true -> SFgeb a b = false.
Proof. unfold SFltb, SFgeb. destruct (SFcompare a b) as [[]|]; congruence. Qed.

Lemma is_nan_abs (x : spec_float) : is_nan (SFabs x) = is_nan x.
Proof. destruct x; reflexivity. Qed.

Lemma clampCast_zero (T : SampleType) :
  clampCast T WorkType_zero = sample_zero T.
Proof. destruct T; reflexivity. Qed.

Lemma clampCast_above (T : SampleType) (x : WorkType) :
  SFltb (to_WorkType T (limit_max T)) x = true ->
  clampCast T x = limit_max T.
Proof.
  unfold clampCast. intros H. rewrite H.
  assert (SFltb x (to_WorkType T (limit_min T)) = false) as ->.
  { destruct T, x as [s|s| |s m e]; cbn in H |- *; try discriminate;
      try reflexivity; destruct s; cbn in H |- *; try discriminate;
      reflexivity. }
  destruct T; reflexivity.
Qed.

Lemma clampCast_below (T : SampleType) (x : WorkType) :
  SFltb x (to_WorkType T (limit_min T)) = true ->
  clampCast T x = limit_min T.
Proof.
  unfold clampCast. intros ->. destruct T; reflexivity.
Qed.

Lemma threshold_value_pass (t x : WorkType) :
  SFgeb (SFabs x) t = true -> threshold_value t x = x.
Proof. unfold threshold_value. intros ->. reflexivity. Qed.

Lemma threshold_value_zero (t x : WorkType) :
  SFgeb (SFabs x) t = false -> threshold_value t x = WorkType_zero.
Proof. unfold threshold_value. intros ->. reflexivity. Qed.

Lemma threshold_value_not_nan (t x : WorkType) :
  is_nan (threshold_value t x) = false.
Proof.
  unfold threshold_value. destruct (SFgeb (SFabs x) t) eqn:E; [|reflexivity].
  apply SFgeb_not_nan in E. now rewrite is_nan_abs in E.
Qed.

Lemma all_from_spec (n : nat) :
  forall lo f, all_from n lo f = true ->
  forall v, lo <= v < lo + Z.of_nat n -> f v = true.
Proof.
  induction n as [|n IH]; intros lo f H v Hv; [lia|].
  cbn [all_from] in H. apply andb_true_iff in H as [H1 H2].
  destruct (decide (v = lo)) as [->|Hne]; [exact H1|].
  apply (IH (lo + 1) f H2). lia.
Qed.

Lemma roundtrip_uint8_t (v : Z) :
  0 <= v <= 255 ->
  clampCast T_uint8_t (float_of_Z v) = v /\ is_nan (float_of_Z v) = false.
Proof.
  intros Hv.
  assert (all_from (Z.to_nat 256) 0 (roundtrip_check T_uint8_t) = true) as HF
    by (vm_compute; reflexivity).
  pose proof (all_from_spec _ _ _ HF v) as Hin.
  rewrite Z2Nat.id in Hin by lia. specialize (Hin ltac:(lia)). cbn [roundtrip_check] in Hin.
  apply andb_true_iff in Hin as [H1 H2].
  apply Z.eqb_eq in H1. apply negb_true_iff in H2. auto.
Qed.

Lemma roundtrip_int16_t (v : Z) :
  -32768 <= v <= 32767 ->
  clampCast T_int16_t (float_of_Z v) = v /\ is_nan (float_of_Z v) = false.
Proof.
  intros Hv.
  assert (all_from (Z.to_nat 65536) (-32768) (roundtrip_check T_int16_t) = true)
    as HF by (vm_compute; reflexivity).
  pose proof (all_from_spec _ _ _ HF v) as Hin.
  rewrite Z2Nat.id in Hin by lia. specialize (Hin ltac:(lia)). cbn [roundtrip_check] in Hin.
  apply andb_true_iff in Hin as [H1 H2].
  apply Z.eqb_eq in H1. apply negb_true_iff in H2. auto.
Qed.

Lemma clampCast_float_idem (x : WorkType) :
  clampCast T_float (clampCast T_float x) = clampCast T_float x.
Proof.
  unfold clampCast. cbn [to_WorkType from_WorkType limit_min limit_max].
  destruct (SFltb x _) eqn:E1; [reflexivity|].
  destruct (SFltb _ x) eqn:E2; [reflexivity|].
  now rewrite E1, E2.
Qed.

Lemma clampCast_float_not_nan (x : WorkType) :
  is_nan x = false -> is_nan (clampCast T_float x) = false.
Proof.
  unfold clampCast. cbn [to_WorkType from_WorkType limit_min limit_max].
  intros H. destruct (SFltb x _); [reflexivity|].
  destruct (SFltb _ x); [reflexivity|]. exact H.
Qed.

(** With a threshold that is not positive, a well-formed sample of the output
    type passes through the operation unchanged when it is an integer, and
    the operation is idempotent in every case. *)
Lemma threshold_pixel_int_id (T : SampleType) (t : WorkType) (v : sample T) :
  T <> T_float -> SFleb t WorkType_zero = true -> sample_ok T v = true ->
  threshold_pixel T T t v = v.
Proof.
  intros HT Ht Hv. unfold threshold_pixel.
  destruct T; [| |congruence]; cbn in Hv |- *;
    apply andb_true_iff in Hv as [H1%Z.leb_le H2%Z.leb_le].
  - destruct (roundtrip_uint8_t v) as [Hr Hn]; [lia|].
    rewrite threshold_value_pass by (apply SFgeb_abs_nonpos; auto). exact Hr.
  - destruct (roundtrip_int16_t v) as [Hr Hn]; [lia|].
    rewrite threshold_value_pass by (apply SFgeb_abs_nonpos; auto). exact Hr.
Qed.

Lemma threshold_pixel_idem (T : SampleType) (t : WorkType) (v : sample T) :
  SFleb t WorkType_zero = true -> sample_ok T v = true ->
  threshold_pixel T T t (threshold_pixel T T t v) = threshold_pixel T T t v.
Proof.
  intros Ht Hv.
  destruct (decide (T = T_float)) as [->|HT].
  - unfold threshold_pixel. cbn [to_WorkType].
    set (y := threshold_value t v).
    assert (is_nan y = false) as Hy by apply threshold_value_not_nan.
    rewrite (threshold_value_pass t (clampCast T_float y)).
    + apply clampCast_float_idem.
    + apply SFgeb_abs_nonpos; [exact Ht|].
      apply clampCast_float_not_nan, Hy.
  - rewrite !threshold_pixel_int_id; auto.
    rewrite threshold_pixel_int_id; auto.
Qed.

(** * Machine integers and offsets *)

Lemma size_t_small (z : Z) : 0 <= z < 2 ^ 64 -> size_t z = z.
Proof. apply Z.mod_small. Qed.

Lemma u32_small (z : Z) : 0 <= z < 2 ^ 32 -> u32 z = z.
Proof. apply Z.mod_small. Qed.

Lemma size_t_range (z : Z) : 0 <= size_t z < 2 ^ 64.
Proof. apply Z.mod_pos_bound. lia. Qed.

Lemma u32_range (z : Z) : 0 <= u32 z < 2 ^ 32.
Proof. apply Z.mod_pos_bound. lia. Qed.

Lemma vec3s_lt_spec (p size : vec3s) :
  vec3s_lt p size = true <->
  vec_x p < vec_x size /\ vec_y p < vec_y size /\ vec_z p < vec_z size.
Proof.
  unfold vec3s_lt. rewrite !andb_true_iff, !Z.ltb_lt. tauto.
Qed.

Lemma vec3s_le_spec (p q : vec3s) :
  vec3s_le p q = true <->
  vec_x p <= vec_x q /\ vec_y p <= vec_y q /\ vec_z p <= vec_z q.
Proof.
  unfold vec3s_le. rewrite !andb_true_iff, !Z.leb_le. tauto.
Qed.

Lemma linear_offset_bound (x y z w h d : Z) :
  0 <= x < w -> 0 <= y < h -> 0 <= z < d ->
  0 <= x + y * w + z * w * h < w * h * d.
Proof.
  intros Hx Hy Hz.
  assert (0 <= y * w) by (apply Z.mul_nonneg_nonneg; lia).
  assert (0 <= w * h) by (apply Z.mul_nonneg_nonneg; lia).
  assert (0 <= z * (w * h)) by (apply Z.mul_nonneg_nonneg; lia).
  assert (y * w <= (h - 1) * w) by (apply Z.mul_le_mono_nonneg_r; lia).
  assert (z * (w * h) <= (d - 1) * (w * h))
    by (apply Z.mul_le_mono_nonneg_r; lia).
  lia.
Qed.

Lemma linear_offset_inj (x y z x' y' z' w h : Z) :
  0 <= x < w -> 0 <= y < h -> 0 <= x' < w -> 0 <= y' < h ->
  x + y * w + z * w * h = x' + y' * w + z' * w * h ->
  x = x' /\ y = y' /\ z = z'.
Proof.
  intros Hx Hy Hx' Hy' E.
  assert (w * (y + z * h) + x = w * (y' + z' * h) + x') as E1 by lia.
  apply Z.div_mod_unique in E1 as [E2 ->]; [|lia..].
  assert (h * z + y = h * z' + y') as E3 by lia.
  apply Z.div_mod_unique in E3 as [-> ->]; [|lia..].
  auto.
Qed.

(** Inside a buffer of [w*h*d] elements the offset does not wrap. *)
Lemma Buffer3_offset_inside (size p : vec3s) :
  vec_x size * vec_y size * vec_z size < 2 ^ 64 ->
  0 <= vec_x p -> 0 <= vec_y p -> 0 <= vec_z p ->
  vec3s_lt p size = true ->
  Buffer3_offset size p
    = vec_x p + vec_y p * vec_x size + vec_z p * vec_x size * vec_y size /\
  0 <= Buffer3_offset size p < vec_x size * vec_y size * vec_z size.
Proof.
  intros Hn Hx Hy Hz [Hx' [Hy' Hz']]%vec3s_lt_spec.
  pose proof (linear_offset_bound (vec_x p) (vec_y p) (vec_z p)
                (vec_x size) (vec_y size) (vec_z size)) as Hb.
  unfold Buffer3_offset. rewrite size_t_small by lia. lia.
Qed.

Lemma Buffer3_offset_inj (size p q : vec3s) :
  vec_x size * vec_y size * vec_z size < 2 ^ 64 ->
  0 <= vec_x p -> 0 <= vec_y p -> 0 <= vec_z p ->
  0 <= vec_x q -> 0 <= vec_y q -> 0 <= vec_z q ->
  vec3s_lt p size = true -> vec3s_lt q size = true ->
  Buffer3_offset size p = Buffer3_offset size q -> p = q.
Proof.
  intros Hn Hpx Hpy Hpz Hqx Hqy Hqz Hp Hq E.
  destruct (Buffer3_offset_inside size p) as [Ep _]; auto.
  destruct (Buffer3_offset_inside size q) as [Eq _]; auto.
  rewrite Ep, Eq in E.
  apply vec3s_lt_spec in Hp, Hq.
  apply linear_offset_inj in E; [|lia..].
  destruct p, q; cbn in *. f_equal; lia.
Qed.

Lemma elem_of_dim3_coords (c n : dim3) :
  c ∈ dim3_coords n <->
  0 <= dim_x c < dim_x n /\ 0 <= dim_y c < dim_y n /\ 0 <= dim_z c < dim_z n.
Proof.
  unfold dim3_coords. rewrite list_elem_of_bind. split.
  - intros (z & (y & (x & ->%list_elem_of_singleton & Hx%elem_of_seqZ)
                   %list_elem_of_bind & Hy%elem_of_seqZ)
               %list_elem_of_bind & Hz%elem_of_seqZ).
    cbn. lia.
  - intros (Hx & Hy & Hz). exists (dim_z c). split; [|apply elem_of_seqZ; lia].
    apply list_elem_of_bind. exists (dim_y c). split; [|apply elem_of_seqZ; lia].
    apply list_elem_of_bind. exists (dim_x c). split; [|apply elem_of_seqZ; lia].
    destruct c. apply list_elem_of_singleton. reflexivity.
Qed.

(** * Folding fallible updates over a list of workers *)

Lemma upd_rel_refl {V} (R : nat -> V -> Prop) (s : list V) : upd_rel R s s.
Proof. split; auto. Qed.

Lemma upd_rel_trans {V} (R : nat -> V -> Prop) (s1 s2 s3 : list V) :
  upd_rel R s1 s2 -> upd_rel R s2 s3 -> upd_rel R s1 s3.
Proof.
  intros [L1 H1] [L2 H2]. split; [congruence|].
  intros i. destruct (H2 i) as [E|?]; [|auto]. rewrite E. apply H1.
Qed.

Lemma upd_rel_keeps {V} (R : nat -> V -> Prop) (s s' : list V) (i : nat) :
  upd_rel R s s' ->
  (exists v, s !! i = Some v /\ R i v) -> exists v, s' !! i = Some v /\ R i v.
Proof.
  intros [_ H] Hv. destruct (H i) as [E|?]; [|auto]. now rewrite E.
Qed.

Lemma upd_rel_insert {V} (R : nat -> V -> Prop) (s : list V) (i : nat) (v : V) :
  R i v -> upd_rel R s (<[i := v]> s).
Proof.
  intros Hv. split; [apply length_insert|].
  intros j. destruct (decide (i = j)) as [<-|Hne].
  - destruct (decide (i < length s)%nat) as [Hlt|Hge].
    + right. exists v. split; [apply list_lookup_insert_eq, Hlt|exact Hv].
    + left. rewrite list_insert_ge by lia. reflexivity.
  - left. apply list_lookup_insert_ne, Hne.
Qed.

Lemma store_spec {V} (s : list V) (i : Z) (v : V) :
  (Z.to_nat i < length s)%nat ->
  store s i v = Some (<[Z.to_nat i := v]> s).
Proof. intros H. unfold store. now rewrite decide_True. Qed.

Lemma fold_opt_upd {A V} (R : nat -> V -> Prop) (cov : A -> nat -> Prop)
    (f : list V -> A -> option (list V)) (n : nat) (l : list A) :
  (forall a s, a ∈ l -> length s = n ->
     exists s', f s a = Some s' /\ upd_rel R s s' /\
       forall i, cov a i -> exists v, s' !! i = Some v /\ R i v) ->
  forall s, length s = n ->
    exists s', fold_opt f l s = Some s' /\ upd_rel R s s' /\
      forall a i, a ∈ l -> cov a i -> exists v, s' !! i = Some v /\ R i v.
Proof.
  induction l as [|a l IH]; intros Hstep s Hlen.
  - exists s. split; [reflexivity|]. split; [apply upd_rel_refl|].
    intros a i Ha. inversion Ha.
  - destruct (Hstep a s) as (s1 & E1 & U1 & C1); [left|exact Hlen|].
    destruct (IH (fun a' s' Ha' => Hstep a' s' (list_elem_of_further _ _ _ Ha')) s1)
      as (s2 & E2 & U2 & C2).
    { destruct U1 as [L1 _]. congruence. }
    exists s2. cbn [fold_opt]. rewrite E1. split; [exact E2|].
    split; [eapply upd_rel_trans; eauto|].
    intros a' i [->|Ha']%elem_of_cons Hc.
    + eapply upd_rel_keeps; eauto.
    + eauto.
Qed.

Lemma size_t_sub_add (o p : Z) :
  0 <= o -> o <= p -> p < 2 ^ 32 ->
  size_t (p - o) = p - o /\ size_t (o + size_t (p - o)) = p.
Proof.
  intros H1 H2 H3. rewrite (size_t_small (p - o)) by lia.
  split; [reflexivity|]. replace (o + (p - o)) with p by lia.
  apply size_t_small. lia.
Qed.

Lemma vec3s_sub_add (o p : vec3s) :
  (0 <= vec_x o <= vec_x p /\ vec_x p < 2 ^ 32) ->
  (0 <= vec_y o <= vec_y p /\ vec_y p < 2 ^ 32) ->
  (0 <= vec_z o <= vec_z p /\ vec_z p < 2 ^ 32) ->
  vec3s_add o (vec3s_sub p o) = p /\
  (0 <= vec_x (vec3s_sub p o) /\ 0 <= vec_y (vec3s_sub p o) /\
   0 <= vec_z (vec3s_sub p o)).
Proof.
  intros Hx Hy Hz.
  destruct (size_t_sub_add (vec_x o) (vec_x p)) as [X1 X2]; [lia..|].
  destruct (size_t_sub_add (vec_y o) (vec_y p)) as [Y1 Y2]; [lia..|].
  destruct (size_t_sub_add (vec_z o) (vec_z p)) as [Z1 Z2]; [lia..|].
  unfold vec3s_add, vec3s_sub. cbn [vec_x vec_y vec_z].
  rewrite X2, Y2, Z2, X1, Y1, Z1. split; [destruct p; reflexivity|lia].
Qed.

(** * The kernel, thread by thread *)

Section Launch.

(** One launch over a volume whose voxel count fits [size_t], on an input
    buffer of that many elements, with blocks of shape [bDim]. *)
Variables InputType OutputType : SampleType.
Variable inputImage : list (sample InputType).
Variable size : vec3s.
Variable threshold : WorkType.
Variable bDim : dim3.

Hypothesis Hvol : vec_x size * vec_y size * vec_z size < 2 ^ 64.
Hypothesis Hin : buffer_fits inputImage size.
Hypothesis Htile : dim_x bDim * dim_y bDim * dim_z bDim < 2 ^ 64.

Local Abbreviation cell_ok := (cell_rel InputType inputImage size bDim).
Local Abbreviation voxel_ok := (out_rel InputType OutputType inputImage threshold).

Lemma load_inside (p : vec3s) :
  0 <= vec_x p -> 0 <= vec_y p -> 0 <= vec_z p ->
  vec3s_lt p size = true ->
  exists v, load inputImage (Buffer3_offset size p) = Some v.
Proof.
  intros Hx Hy Hz Hp.
  destruct (Buffer3_offset_inside size p) as [_ Hb]; auto.
  apply lookup_lt_is_Some_2. rewrite Hin. lia.
Qed.

Lemma vec3s_add_nonneg (o c : vec3s) :
  0 <= vec_x (vec3s_add o c) /\ 0 <= vec_y (vec3s_add o c) /\
  0 <= vec_z (vec3s_add o c).
Proof. cbn. pose proof size_t_range. repeat split; apply H. Qed.

Lemma setup_step (bIdx tIdx : dim3) (sm : list (option (sample InputType))) :
  tIdx ∈ dim3_coords bDim ->
  (Z.to_nat (dim_x bDim * dim_y bDim * dim_z bDim) <= length sm)%nat ->
  exists sm',
    fst <$> processKernel_setup InputType (MkThreadCtx bDim bIdx tIdx)
              inputImage size sm = Some sm' /\
    upd_rel (cell_ok (tile_origin bDim bIdx)) sm sm' /\
    forall i, fills size bDim bIdx tIdx i ->
      exists cell, sm' !! i = Some cell /\ cell_ok (tile_origin bDim bIdx) i cell.
Proof.
  intros (Hx & Hy & Hz)%elem_of_dim3_coords Hsm.
  unfold processKernel_setup, CachedBuffer3_fill, inputBuffer_of.
  cbn [m_buffer m_size m_cacheSize m_cacheOffset blockDim blockIdx threadIdx].
  fold (dim3_vec bDim) (dim3_vec tIdx) (tile_origin bDim bIdx).
  assert (vec3s_lt (dim3_vec tIdx) (dim3_vec bDim) = true) as Hc
    by (apply vec3s_lt_spec; cbn; lia).
  rewrite Hc. cbn [andb].
  destruct (vec3s_lt (vec3s_add (tile_origin bDim bIdx) (dim3_vec tIdx)) size) eqn:Hg.
  - destruct (vec3s_add_nonneg (tile_origin bDim bIdx) (dim3_vec tIdx)) as (G1 & G2 & G3).
    destruct (load_inside _ G1 G2 G3 Hg) as [v Hv].
    destruct (Buffer3_offset_inside (dim3_vec bDim) (dim3_vec tIdx))
      as [_ Hb]; cbn; auto; try lia.
    cbn in Hb.
    rewrite Hv. cbn [mbind option_bind].
    rewrite store_spec by lia. cbn [mbind option_bind fmap option_fmap option_map fst].
    eexists. split; [reflexivity|].
    assert (cell_ok (tile_origin bDim bIdx)
              (Z.to_nat (Buffer3_offset (dim3_vec bDim) (dim3_vec tIdx))) (Some v)) as HR.
    { exists (dim3_vec tIdx), v. cbn. repeat split; auto; lia. }
    split; [apply upd_rel_insert, HR|].
    intros i [-> _]. exists (Some v). split; [|exact HR].
    apply list_lookup_insert_eq. lia.
  - eexists. split; [reflexivity|]. split; [apply upd_rel_refl|].
    intros i [_ ?]. congruence.
Qed.

Lemma thread_coord_range (t : ThreadCtx) :
  (0 <= vec_x (thread_coord t) < 2 ^ 32) /\
  (0 <= vec_y (thread_coord t) < 2 ^ 32) /\
  (0 <= vec_z (thread_coord t) < 2 ^ 32).
Proof. cbn. repeat split; apply u32_range. Qed.

(** After the barrier, a read through the cached accessor yields the input
    sample of the voxel, whether it is served from scratch or from the
    backing buffer. *)
Lemma CachedBuffer3_get_inside (bIdx tIdx : dim3)
    (sm : list (option (sample InputType))) (p : vec3s) :
  (forall tIdx' i, tIdx' ∈ dim3_coords bDim -> fills size bDim bIdx tIdx' i ->
     exists cell, sm !! i = Some cell /\ cell_ok (tile_origin bDim bIdx) i cell) ->
  (0 <= vec_x p < 2 ^ 32) -> (0 <= vec_y p < 2 ^ 32) ->
  (0 <= vec_z p < 2 ^ 32) ->
  vec3s_lt p size = true ->
  exists v r,
    CachedBuffer3_get
      (inputBuffer_of (MkThreadCtx bDim bIdx tIdx) inputImage size) sm p
      = Some (v, r) /\
    inputImage !! Z.to_nat (Buffer3_offset size p) = Some v.
Proof.
  intros Hfilled Hx Hy Hz Hp.
  unfold CachedBuffer3_get, inputBuffer_of.
  cbn [m_buffer m_size m_cacheSize m_cacheOffset blockDim blockIdx threadIdx].
  fold (dim3_vec bDim) (tile_origin bDim bIdx).
  destruct (vec3s_le (tile_origin bDim bIdx) p
            && vec3s_lt (vec3s_sub p (tile_origin bDim bIdx)) (dim3_vec bDim)) eqn:Et.
  - apply andb_true_iff in Et as [Hle Hlt].
    apply vec3s_le_spec in Hle. cbn [tile_origin vec_x vec_y vec_z] in Hle.
    pose proof (u32_range (dim_x bDim * dim_x bIdx)) as Ox.
    pose proof (u32_range (dim_y bDim * dim_y bIdx)) as Oy.
    pose proof (u32_range (dim_z bDim * dim_z bIdx)) as Oz.
    destruct (vec3s_sub_add (tile_origin bDim bIdx) p) as [Hg (C1 & C2 & C3)];
      [cbn [tile_origin vec_x vec_y vec_z]; lia..|].
    set (c := vec3s_sub p (tile_origin bDim bIdx)) in *.
    pose proof Hlt as Hlt'. apply vec3s_lt_spec in Hlt'. cbn [dim3_vec vec_x vec_y vec_z] in Hlt'.
    destruct (Hfilled (Dim3 (vec_x c) (vec_y c) (vec_z c))
                (Z.to_nat (Buffer3_offset (dim3_vec bDim) c)))
      as (cell & Hcell & (c' & v & -> & (N1 & N2 & N3) & Hc' & Hi & Hg' & Hv)).
    { apply elem_of_dim3_coords. cbn [dim_x dim_y dim_z]. lia. }
    { unfold fills.
      change (dim3_vec (Dim3 (vec_x c) (vec_y c) (vec_z c))) with c.
      rewrite Hg. auto. }
    assert (c' = c) as ->.
    { symmetry.
      apply (Buffer3_offset_inj (dim3_vec bDim) c c' Htile C1 C2 C3 N1 N2 N3 Hlt Hc').
      apply Z2Nat.inj; [apply size_t_range..|exact Hi]. }
    rewrite Hg in Hv. unfold load in *. rewrite Hcell.
    eexists _, _. split; [reflexivity|exact Hv].
  - destruct (load_inside p) as [v Hv]; auto; try lia.
    rewrite Hv. cbn [mbind option_bind].
    eexists _, _. split; [reflexivity|exact Hv].
Qed.

Lemma body_step (bIdx tIdx : dim3) (sm : list (option (sample InputType)))
    (out : list (sample OutputType)) :
  (forall tIdx' i, tIdx' ∈ dim3_coords bDim -> fills size bDim bIdx tIdx' i ->
     exists cell, sm !! i = Some cell /\ cell_ok (tile_origin bDim bIdx) i cell) ->
  buffer_fits out size ->
  exists out',
    fst <$> processKernel_body InputType OutputType
              (MkThreadCtx bDim bIdx tIdx) inputImage size threshold sm out
      = Some out' /\
    upd_rel voxel_ok out out' /\
    forall i, writes size bDim bIdx tIdx i -> exists v, out' !! i = Some v /\ voxel_ok i v.
Proof.
  intros Hfilled Hout. unfold processKernel_body, writes.
  destruct (thread_coord_range (MkThreadCtx bDim bIdx tIdx)) as (Rx & Ry & Rz).
  set (p := thread_coord (MkThreadCtx bDim bIdx tIdx)) in *.
  change ((vec_x p <? vec_x size) && (vec_y p <? vec_y size)
          && (vec_z p <? vec_z size)) with (vec3s_lt p size).
  destruct (vec3s_lt p size) eqn:Hp.
  - destruct (CachedBuffer3_get_inside bIdx tIdx sm p Hfilled Rx Ry Rz Hp)
      as (v & r & Hget & Hv).
    rewrite Hget. cbn [mbind option_bind].
    destruct (Buffer3_offset_inside size p) as [_ Hb]; auto; try lia.
    unfold Buffer3_set. rewrite store_spec by (rewrite Hout; lia).
    cbn [mbind option_bind fmap option_fmap option_map fst].
    eexists. split; [reflexivity|].
    assert (voxel_ok (Z.to_nat (Buffer3_offset size p))
              (clampCast OutputType
                 (if SFgeb (SFabs (to_WorkType InputType v)) threshold
                  then to_WorkType InputType v else WorkType_zero))) as HR.
    { exists v. split; [exact Hv|reflexivity]. }
    split; [apply upd_rel_insert, HR|].
    intros i [_ ->]. eexists. split; [|exact HR].
    apply list_lookup_insert_eq. rewrite Hout. lia.
  - eexists. split; [reflexivity|]. split; [apply upd_rel_refl|].
    intros i [H _]. congruence.
Qed.

Variable sharedMemorySize : Z.
Hypothesis Hsmem :
  dim_x bDim * dim_y bDim * dim_z bDim <= sharedMemorySize / sizeof InputType.

Lemma run_block_spec (bIdx : dim3) (out : list (sample OutputType)) :
  buffer_fits out size ->
  exists out',
    run_block InputType OutputType inputImage size threshold bDim
      sharedMemorySize out bIdx = Some out' /\
    upd_rel voxel_ok out out' /\
    forall tIdx i, tIdx ∈ dim3_coords bDim -> writes size bDim bIdx tIdx i ->
      exists v, out' !! i = Some v /\ voxel_ok i v.
Proof.
  intros Hout. unfold run_block.
  set (n := Z.to_nat (sharedMemorySize / sizeof InputType)).
  destruct (fold_opt_upd (cell_ok (tile_origin bDim bIdx)) (fills size bDim bIdx)
              (fun sm tIdx =>
                 fst <$> processKernel_setup InputType
                           (MkThreadCtx bDim bIdx tIdx) inputImage size sm)
              n (dim3_coords bDim)) with (s := replicate n (@None (sample InputType)))
    as (sm & -> & _ & Hfilled).
  { intros tIdx sm Ht Hlen. apply setup_step; [exact Ht|].
    rewrite Hlen. unfold n. clear -Hsmem.
    set (q := sharedMemorySize / sizeof InputType) in *.
    set (a := dim_x bDim * dim_y bDim * dim_z bDim) in *.
    clearbody q a. lia. }
  { apply length_replicate. }
  cbn [mbind option_bind].
  apply (fold_opt_upd voxel_ok (writes size bDim bIdx) _ (length out)); [|reflexivity].
  intros tIdx out1 Ht Hlen. apply body_step; [exact Hfilled|].
  unfold buffer_fits in *. congruence.
Qed.

Lemma processKernel_spec (gDim : dim3) (out : list (sample OutputType)) :
  buffer_fits out size ->
  exists out',
    processKernel InputType OutputType gDim bDim sharedMemorySize
      inputImage size threshold out = Some out' /\
    upd_rel voxel_ok out out' /\
    forall bIdx tIdx i,
      bIdx ∈ dim3_coords gDim -> tIdx ∈ dim3_coords bDim ->
      writes size bDim bIdx tIdx i -> exists v, out' !! i = Some v /\ voxel_ok i v.
Proof.
  intros Hout. unfold processKernel.
  destruct (fold_opt_upd voxel_ok
              (fun bIdx i => exists tIdx,
                 tIdx ∈ dim3_coords bDim /\ writes size bDim bIdx tIdx i)
              (run_block InputType OutputType inputImage size threshold bDim
                 sharedMemorySize)
              (length out) (dim3_coords gDim)) with (s := out)
    as (out' & E & U & C); [|reflexivity|].
  - intros bIdx out1 Hb Hlen.
    destruct (run_block_spec bIdx out1) as (out2 & E & U & C).
    { unfold buffer_fits in *. congruence. }
    exists out2. split; [exact E|]. split; [exact U|].
    intros i (tIdx & Ht & Hw). eauto.
  - exists out'. split; [exact E|]. split; [exact U|].
    intros bIdx tIdx i Hb Ht Hw. apply (C bIdx); eauto.
Qed.

Hypothesis Hsize : 0 <= vec_x size /\ 0 <= vec_y size /\ 0 <= vec_z size.

Lemma voxel_of_offset (i : Z) :
  0 <= i < vec_x size * vec_y size * vec_z size ->
  exists p, 0 <= vec_x p /\ 0 <= vec_y p /\ 0 <= vec_z p /\
    vec3s_lt p size = true /\ Buffer3_offset size p = i.
Proof.
  destruct size as [w h d]. cbn [vec_x vec_y vec_z] in *.
  destruct Hsize as (Hw0 & Hh0 & Hd0). intros Hi.
  assert (0 < w) as Hw by nia.
  assert (0 < h) as Hh by nia.
  assert (0 < d) as Hd by nia.
  set (q := i / w).
  assert (i = w * q + i mod w) as Ei by (apply Z.div_mod; lia).
  assert (0 <= i mod w < w) as Hx by (apply Z.mod_pos_bound; lia).
  assert (0 <= q) as Hq0 by (apply Z.div_pos; lia).
  assert (q < h * d) as Hq.
  { apply Z.div_lt_upper_bound; [lia|].
    replace (w * (h * d)) with (w * h * d) by ring. lia. }
  assert (q = h * (q / h) + q mod h) as Eq by (apply Z.div_mod; lia).
  assert (0 <= q mod h < h) as Hy by (apply Z.mod_pos_bound; lia).
  assert (0 <= q / h) as Hz0 by (apply Z.div_pos; lia).
  assert (q / h < d) as Hz by (apply Z.div_lt_upper_bound; lia).
  exists (Vec3s (i mod w) (q mod h) (q / h)).
  cbn [vec_x vec_y vec_z]. repeat split; try lia.
  - apply vec3s_lt_spec. cbn [vec_x vec_y vec_z]. lia.
  - unfold Buffer3_offset. cbn [vec_x vec_y vec_z].
    replace (i mod w + q mod h * w + q / h * w * h)
      with (w * (h * (q / h) + q mod h) + i mod w) by ring.
    rewrite <- Eq, <- Ei. apply size_t_small. lia.
Qed.

Theorem processKernel_correct (gDim : dim3) (out : list (sample OutputType)) :
  covers size bDim gDim -> buffer_fits out size ->
  processKernel InputType OutputType gDim bDim sharedMemorySize
    inputImage size threshold out
  = Some (threshold_pixel InputType OutputType threshold <$> inputImage).
Proof.
  intros Hcov Hout.
  destruct (processKernel_spec gDim out Hout) as (out' & -> & [Hlen _] & C).
  f_equal. apply list_eq. intros i. rewrite list_lookup_fmap.
  destruct (decide (i < length inputImage)%nat) as [Hi|Hi].
  - destruct (voxel_of_offset (Z.of_nat i)) as (p & Px & Py & Pz & Hp & Ep).
    { rewrite Hin in Hi. lia. }
    destruct (Hcov p Px Py Pz Hp) as (bIdx & tIdx & Hb & Ht & Et).
    destruct (C bIdx tIdx i Hb Ht) as (v & -> & u & -> & ->).
    { unfold writes. rewrite Et. split; [exact Hp|]. rewrite Ep. lia. }
    reflexivity.
  - rewrite !(proj2 (lookup_ge_None _ _)); [reflexivity|lia|].
    rewrite Hlen, Hout, <- Hin. lia.
Qed.
End Launch.

(** * The launch configured by the driver *)

Lemma process_gridSize_small (size : vec3s) :
  geometry_ok size ->
  process_gridSize size
  = Dim3 ((vec_x size + 31) / 32) ((vec_y size + 3) / 4) (vec_z size).
Proof.
  intros (Hx & Hy & Hz & _). unfold process_gridSize, process_blockSize.
  cbn [dim_x dim_y dim_z].
  rewrite !(size_t_small (_ + _)) by lia.
  rewrite !size_t_small by lia.
  replace (vec_x size + 32 - 1) with (vec_x size + 31) by lia.
  replace (vec_y size + 4 - 1) with (vec_y size + 3) by lia.
  replace (vec_z size + 1 - 1) with (vec_z size) by lia.
  rewrite Z.div_1_r.
  rewrite !u32_small; [reflexivity|lia|..].
  - split; [apply Z.div_pos; lia|]. apply Z.div_lt_upper_bound; lia.
  - split; [apply Z.div_pos; lia|]. apply Z.div_lt_upper_bound; lia.
Qed.

Lemma process_grid_covers (size : vec3s) :
  geometry_ok size ->
  covers size process_blockSize (process_gridSize size).
Proof.
  intros Hg. rewrite process_gridSize_small by exact Hg.
  destruct Hg as (Hx & Hy & Hz & _).
  intros [x y z] Px Py Pz (Lx & Ly & Lz)%vec3s_lt_spec.
  cbn [vec_x vec_y vec_z] in *.
  exists (Dim3 (x / 32) (y / 4) z), (Dim3 (x mod 32) (y mod 4) 0).
  pose proof (Z.div_mod x 32 ltac:(lia)) as Ex.
  pose proof (Z.div_mod y 4 ltac:(lia)) as Ey.
  pose proof (Z.mod_pos_bound x 32 ltac:(lia)) as Mx.
  pose proof (Z.mod_pos_bound y 4 ltac:(lia)) as My.
  assert (0 <= x / 32) by (apply Z.div_pos; lia).
  assert (0 <= y / 4) by (apply Z.div_pos; lia).
  assert (x / 32 < (vec_x size + 31) / 32).
  { apply Z.div_lt_upper_bound; [lia|].
    pose proof (Z.div_mod (vec_x size + 31) 32 ltac:(lia)).
    pose proof (Z.mod_pos_bound (vec_x size + 31) 32 ltac:(lia)). lia. }
  assert (y / 4 < (vec_y size + 3) / 4).
  { apply Z.div_lt_upper_bound; [lia|].
    pose proof (Z.div_mod (vec_y size + 3) 4 ltac:(lia)).
    pose proof (Z.mod_pos_bound (vec_y size + 3) 4 ltac:(lia)). lia. }
  split; [apply elem_of_dim3_coords; cbn [dim_x dim_y dim_z]; lia|].
  split; [apply elem_of_dim3_coords; cbn [dim_x dim_y dim_z process_blockSize]; lia|].
  unfold thread_coord, process_blockSize.
  cbn [blockDim blockIdx threadIdx dim_x dim_y dim_z].
  rewrite <- Ex, <- Ey. replace (1 * z + 0) with z by lia.
  rewrite !u32_small by lia. reflexivity.
Qed.

Lemma process_sharedMemorySize_fits (InputType : SampleType) :
  dim_x process_blockSize * dim_y process_blockSize * dim_z process_blockSize
  <= process_sharedMemorySize InputType / sizeof InputType.
Proof. destruct InputType; vm_compute; congruence. Qed.

(** The launch the driver configures computes the per-voxel operation on every
    element of the input. *)
Theorem stage_kernel_correct (InputType OutputType : SampleType)
    (inputImage : list (sample InputType)) (size : vec3s) (threshold : double)
    (outputImage : list (sample OutputType)) :
  geometry_ok size -> buffer_fits inputImage size ->
  buffer_fits outputImage size ->
  stage_kernel InputType OutputType inputImage size threshold outputImage
  = Some (threshold_pixel InputType OutputType (double_to_WorkType threshold)
            <$> inputImage).
Proof.
  intros Hg Hin Hout. unfold stage_kernel.
  apply processKernel_correct; auto.
  - apply Hg.
  - vm_compute. reflexivity.
  - apply process_sharedMemorySize_fits.
  - destruct Hg as (? & ? & ? & _). lia.
  - apply process_grid_covers, Hg.
Qed.

(** Whatever the extents, as long as the voxel count fits [size_t] and the
    buffers hold that many elements, no thread of the launch faults. *)
Theorem stage_kernel_safe (InputType OutputType : SampleType)
    (inputImage : list (sample InputType)) (size : vec3s) (threshold : double)
    (outputImage : list (sample OutputType)) :
  vec_x size * vec_y size * vec_z size < 2 ^ 64 ->
  buffer_fits inputImage size -> buffer_fits outputImage size ->
  exists out,
    stage_kernel InputType OutputType inputImage size threshold outputImage
    = Some out /\ length out = length outputImage.
Proof.
  intros Hvol Hin Hout. unfold stage_kernel.
  destruct (processKernel_spec InputType OutputType inputImage size
              (double_to_WorkType threshold) process_blockSize Hvol Hin
              ltac:(vm_compute; reflexivity)
              (process_sharedMemorySize InputType)
              (process_sharedMemorySize_fits InputType)
              (process_gridSize size) outputImage Hout)
    as (out & E & [L _] & _).
  eauto.
Qed.

(** * The object store *)

Lemma deref_insert_eq (T : SampleType) (objs : gmap shared_ptr AnyContainer)
    (p : shared_ptr) (c : Container T) :
  deref T (<[p := existT T c]> objs) p = Some c.
Proof.
  unfold deref. rewrite lookup_insert_eq.
  destruct (decide (T = T)) as [e|]; [|congruence].
  rewrite (UIP_dec SampleType_eq_dec e eq_refl). reflexivity.
Qed.

Lemma deref_insert_ne (T : SampleType) (objs : gmap shared_ptr AnyContainer)
    (p q : shared_ptr) (c : AnyContainer) :
  p <> q -> deref T (<[q := c]> objs) p = deref T objs p.
Proof. intros H. unfold deref. rewrite lookup_insert_ne; auto. Qed.

Lemma deref_Some_lookup (T : SampleType) (objs : gmap shared_ptr AnyContainer)
    (p : shared_ptr) (c : Container T) :
  deref T objs p = Some c -> objs !! p = Some (existT T c).
Proof.
  unfold deref. destruct (objs !! p) as [[T' c']|]; [|discriminate].
  destruct (decide (T' = T)) as [<-|]; [|discriminate].
  cbn. congruence.
Qed.

Lemma fresh_unused (objs : gmap shared_ptr AnyContainer) :
  objs !! fresh (dom objs) = None.
Proof. apply not_elem_of_dom, is_fresh. Qed.

Lemma is_host (T : SampleType) (c : Container T) :
  negb (isGPU c) && negb (isBoth c) = bool_decide (c_location c = LocationHost).
Proof.
  unfold isGPU, isBoth. destruct (c_location c); reflexivity.
Qed.

(** * The driver *)

(** What [process] does to a host-resident input: one copy, one allocation,
    one launch. *)
Lemma process_host (InputType OutputType : SampleType)
    (junk : nat -> sample OutputType) (imageData : shared_ptr) (size : vec3s)
    (threshold : double) (w : World) (c : Container InputType) :
  deref InputType (objects w) imageData = Some c ->
  c_location c = LocationHost ->
  let p1 := fresh (dom (objects w)) in
  let objs1 := <[p1 := existT InputType (Container_copy LocationGpu c)]> (objects w) in
  let p2 := fresh (dom objs1) in
  let k := process_launch InputType OutputType p1 size threshold p2 in
  process InputType OutputType junk imageData size threshold w
  = Some (p2,
      MkWorld
        (<[p2 := existT OutputType
                   (Container_alloc OutputType LocationGpu (c_stream c)
                      (process_numel size) junk)]> objs1)
        (pending w ++ [(c_stream c, k)])
        (((events w ++ [EvMigrate imageData p1])
            ++ [EvAllocate p2 (process_numel size)])
           ++ [EvLaunch (c_stream c) k])).
Proof.
  intros Hc Hloc. cbn zeta. unfold process, bind, get_object.
  rewrite Hc. rewrite is_host, Hloc. cbn [bool_decide decide_rel].
  rewrite bool_decide_eq_true_2 by reflexivity.
  unfold make_shared at 1. cbn [objects pending events emit ret].
  rewrite deref_insert_eq. reflexivity.
Qed.

(** What [process] does to an input the accelerator can already access: one
    allocation, one launch. *)
Lemma process_device (InputType OutputType : SampleType)
    (junk : nat -> sample OutputType) (imageData : shared_ptr) (size : vec3s)
    (threshold : double) (w : World) (c : Container InputType) :
  deref InputType (objects w) imageData = Some c ->
  c_location c <> LocationHost ->
  let p2 := fresh (dom (objects w)) in
  let k := process_launch InputType OutputType imageData size threshold p2 in
  process InputType OutputType junk imageData size threshold w
  = Some (p2,
      MkWorld
        (<[p2 := existT OutputType
                   (Container_alloc OutputType LocationGpu (c_stream c)
                      (process_numel size) junk)]> (objects w))
        (pending w ++ [(c_stream c, k)])
        ((events w ++ [EvAllocate p2 (process_numel size)])
           ++ [EvLaunch (c_stream c) k])).
Proof.
  intros Hc Hloc. cbn zeta. unfold process, bind, get_object.
  rewrite Hc. rewrite is_host.
  rewrite bool_decide_eq_false_2 by exact Hloc.
  cbn [ret]. rewrite Hc. reflexivity.
Qed.

Lemma migrations_app (l1 l2 : list Event) :
  migrations (l1 ++ l2) = (migrations l1 + migrations l2)%nat.
Proof. unfold migrations. rewrite List.filter_app, length_app. reflexivity. Qed.

(** A launch only replaces the buffer of its output container. *)
Lemma run_launch_frame (k : KernelLaunch)
    (objs objs' : gmap shared_ptr AnyContainer) (q : shared_ptr) :
  run_launch k objs = Some objs' -> q <> k_outputImage k ->
  objs' !! q = objs !! q.
Proof.
  unfold run_launch. intros H Hq.
  destruct (deref _ objs (k_inputImage k)); [|discriminate].
  destruct (deref _ objs (k_outputImage k)); [|discriminate].
  cbn [mbind option_bind] in H.
  destruct (processKernel _ _ _ _ _ _ _ _ _); [|discriminate].
  cbn [mbind option_bind] in H. injection H as <-.
  apply lookup_insert_ne. congruence.
Qed.

Lemma process_numel_volume (size : vec3s) :
  process_numel size = volume size.
Proof.
  unfold process_numel, volume, size_t. cbn zeta.
  rewrite Z.mul_mod_idemp_l by lia. reflexivity.
Qed.

Lemma process_numel_small (size : vec3s) :
  0 <= vec_x size * vec_y size * vec_z size < 2 ^ 64 ->
  process_numel size = vec_x size * vec_y size * vec_z size.
Proof.
  intros H. rewrite process_numel_volume. apply size_t_small, H.
Qed.

Lemma geometry_ok_volume (size : vec3s) :
  geometry_ok size -> 0 <= vec_x size * vec_y size * vec_z size < 2 ^ 64.
Proof.
  intros (Hx & Hy & Hz & Hv). split; [|exact Hv].
  apply Z.mul_nonneg_nonneg; [apply Z.mul_nonneg_nonneg|]; lia.
Qed.

Lemma Container_alloc_numel (T : SampleType) (location : ContainerLocation)
    (stream : cudaStream_t) (n : Z) (junk : nat -> sample T) :
  0 <= n -> numel (Container_alloc T location stream n junk) = n.
Proof.
  intros Hn. unfold numel, Container_alloc. cbn [c_buffer].
  rewrite length_fmap, length_seq. lia.
Qed.

Lemma Container_alloc_fits (T : SampleType) (location : ContainerLocation)
    (stream : cudaStream_t) (size : vec3s) (junk : nat -> sample T) :
  geometry_ok size ->
  buffer_fits
    (c_buffer (Container_alloc T location stream (process_numel size) junk)) size.
Proof.
  intros Hg%geometry_ok_volume. unfold buffer_fits, Container_alloc.
  cbn [c_buffer]. rewrite length_fmap, length_seq, process_numel_small by lia.
  reflexivity.
Qed.

Lemma lookup_used_unused (objs : gmap shared_ptr AnyContainer)
    (p q : shared_ptr) (c : AnyContainer) :
  objs !! p = Some c -> objs !! q = None -> p <> q.
Proof. congruence. Qed.

(** Running the launch of the driver against a store that holds its two
    containers. *)
Lemma run_process_launch (InputType OutputType : SampleType)
    (inImageData outImageData : shared_ptr) (size : vec3s) (threshold : double)
    (objs : gmap shared_ptr AnyContainer)
    (input : Container InputType) (output : Container OutputType) :
  deref InputType objs inImageData = Some input ->
  deref OutputType objs outImageData = Some output ->
  geometry_ok size ->
  buffer_fits (c_buffer input) size -> buffer_fits (c_buffer output) size ->
  run_launch
    (process_launch InputType OutputType inImageData size threshold outImageData)
    objs
  = Some (<[outImageData :=
              existT OutputType
                (MkContainer (c_location output) (c_stream output)
                   (threshold_pixel InputType OutputType
                      (double_to_WorkType threshold) <$> c_buffer input))]> objs).
Proof.
  intros Hin Hout Hg Fin Fout. unfold run_launch, process_launch.
  cbn [k_InputType k_OutputType k_gridSize k_blockSize k_sharedMemorySize
       k_inputImage k_size k_threshold k_outputImage].
  rewrite Hin, Hout. cbn [mbind option_bind].
  pose proof (stage_kernel_correct InputType OutputType (c_buffer input) size
                threshold (c_buffer output) Hg Fin Fout) as E.
  unfold stage_kernel in E. rewrite E. reflexivity.
Qed.

(** The stage from end to end: on a world with no queued work, [process]
    followed by draining the stream leaves a new accelerator-resident
    container holding the thresholded volume, and the input object is what it
    was. *)
Theorem process_and_drain_spec (InputType OutputType : SampleType)
    (junk : nat -> sample OutputType) (imageData : shared_ptr) (size : vec3s)
    (threshold : double) (w : World) (c : Container InputType) :
  pending w = [] ->
  deref InputType (objects w) imageData = Some c ->
  geometry_ok size -> buffer_fits (c_buffer c) size ->
  exists outImageData w',
    process_and_drain InputType OutputType junk imageData size threshold w
      = Some (outImageData, w') /\
    deref OutputType (objects w') outImageData
      = Some (MkContainer LocationGpu (c_stream c)
                (threshold_pixel InputType OutputType
                   (double_to_WorkType threshold) <$> c_buffer c)) /\
    objects w !! outImageData = None /\
    objects w' !! imageData = objects w !! imageData /\
    pending w' = [].
Proof.
  intros Hq Hc Hg Hfit.
  pose proof (deref_Some_lookup _ _ _ _ Hc) as Hlook.
  unfold process_and_drain, bind at 1, get_object. rewrite Hc.
  unfold bind at 1.
  destruct (decide (c_location c = LocationHost)) as [Hloc|Hloc].
  - rewrite (process_host _ _ _ _ _ _ _ c Hc Hloc). cbn zeta.
    set (p1 := fresh (dom (objects w))).
    set (objs1 := <[p1 := existT InputType (Container_copy LocationGpu c)]> (objects w)).
    set (p2 := fresh (dom objs1)).
    assert (objects w !! p1 = None) as F1 by apply fresh_unused.
    assert (objs1 !! p2 = None) as F2 by apply fresh_unused.
    assert (p2 <> p1) as N21.
    { intros E. rewrite E in F2. unfold objs1 in F2.
      rewrite lookup_insert_eq in F2. discriminate. }
    assert (objects w !! p2 = None) as F2'.
    { unfold objs1 in F2. rewrite lookup_insert_ne in F2 by congruence. exact F2. }
    pose proof (lookup_used_unused _ _ _ _ Hlook F1) as Ni1.
    pose proof (lookup_used_unused _ _ _ _ Hlook F2') as Ni2.
    unfold bind, drain, getStream. cbn [objects pending events].
    rewrite Hq. cbn [app drain_queue]. rewrite decide_True by reflexivity.
    rewrite (run_process_launch InputType OutputType p1 p2 size threshold _
               (Container_copy LocationGpu c)
               (Container_alloc OutputType LocationGpu (c_stream c)
                  (process_numel size) junk)).
    + cbn [mbind option_bind drain_queue ret].
      eexists _, _. split; [reflexivity|]. cbn [objects pending].
      split; [rewrite deref_insert_eq; reflexivity|].
      split; [exact F2'|]. split; [|reflexivity].
      unfold objs1. rewrite !lookup_insert_ne by congruence. reflexivity.
    + rewrite deref_insert_ne by congruence. apply deref_insert_eq.
    + apply deref_insert_eq.
    + exact Hg.
    + exact Hfit.
    + apply Container_alloc_fits, Hg.
  - rewrite (process_device _ _ _ _ _ _ _ c Hc Hloc). cbn zeta.
    set (p2 := fresh (dom (objects w))).
    assert (objects w !! p2 = None) as F2 by apply fresh_unused.
    pose proof (lookup_used_unused _ _ _ _ Hlook F2) as Ni2.
    unfold bind, drain, getStream. cbn [objects pending events].
    rewrite Hq. cbn [app drain_queue]. rewrite decide_True by reflexivity.
    rewrite (run_process_launch InputType OutputType imageData p2 size
               threshold _ c
               (Container_alloc OutputType LocationGpu (c_stream c)
                  (process_numel size) junk)).
    + cbn [mbind option_bind drain_queue ret].
      eexists _, _. split; [reflexivity|]. cbn [objects pending].
      split; [rewrite deref_insert_eq; reflexivity|].
      split; [exact F2|]. split; [|reflexivity].
      rewrite !lookup_insert_ne by congruence. reflexivity.
    + rewrite deref_insert_ne by congruence. exact Hc.
    + apply deref_insert_eq.
    + exact Hg.
    + exact Hfit.
    + apply Container_alloc_fits, Hg.
Qed.

(** The first scenario of the specification, from end to end: geometry
    (2,1,1), 16-bit samples 50 and -5 on the host, threshold 10.0, 8-bit
    unsigned output: the first passes, the second is zeroed. *)
Example scenario_int16_to_uint8 :
  run_stage T_int16_t T_uint8_t (fun _ => 7) host_volume (Vec3s 2 1 1)
    (double_of_Z 10) = Some [50; 0].
Proof. vm_compute. reflexivity. Qed.

(** * The launch, voxel by voxel *)

Lemma voxel_index_inside (size : vec3s) (x y z : Z) :
  vec_x size * vec_y size * vec_z size < 2 ^ 64 ->
  in_volume size x y z ->
  (voxel_index size x y z
   < Z.to_nat (vec_x size * vec_y size * vec_z size))%nat.
Proof.
  intros Hv (Hx & Hy & Hz). unfold voxel_index.
  destruct (Buffer3_offset_inside size (Vec3s x y z)) as [_ Hb];
    cbn [vec_x vec_y vec_z]; auto; try lia.
  apply vec3s_lt_spec. cbn [vec_x vec_y vec_z]. lia.
Qed.

Lemma stage_kernel_voxel (InputType OutputType : SampleType)
    (inputImage : list (sample InputType)) (size : vec3s) (threshold : double)
    (outputImage : list (sample OutputType)) :
  geometry_ok size -> buffer_fits inputImage size ->
  buffer_fits outputImage size ->
  exists out,
    stage_kernel InputType OutputType inputImage size threshold outputImage
      = Some out /\
    forall x y z, in_volume size x y z ->
      exists v,
        inputImage !! voxel_index size x y z = Some v /\
        out !! voxel_index size x y z
          = Some (threshold_pixel InputType OutputType
                    (double_to_WorkType threshold) v).
Proof.
  intros Hg Hin Hout. eexists. split; [apply stage_kernel_correct; auto|].
  intros x y z Hv.
  pose proof (voxel_index_inside size x y z (proj2 (geometry_ok_volume _ Hg)) Hv) as Hi.
  rewrite <- Hin in Hi. apply lookup_lt_is_Some_2 in Hi as [v Hv'].
  exists v. split; [exact Hv'|]. rewrite list_lookup_fmap, Hv'. reflexivity.
Qed.

(** * The claims about the kernel *)

(** C1.  For every voxel inside the volume, the launch writes at the voxel's
    offset the clamped cast of the thresholded value: the widened sample when
    its magnitude is at least the narrowed threshold, zero otherwise.  A voxel
    whose magnitude is strictly below the threshold is written as the zero of
    the output type. *)
Theorem C1_kernel_thresholds_every_voxel (InputType OutputType : SampleType)
    (inputImage : list (sample InputType)) (size : vec3s) (threshold : double)
    (outputImage : list (sample OutputType)) :
  geometry_ok size -> buffer_fits inputImage size ->
  buffer_fits outputImage size ->
  exists out,
    stage_kernel InputType OutputType inputImage size threshold outputImage
      = Some out /\
    forall x y z, in_volume size x y z ->
      exists v,
        inputImage !! voxel_index size x y z = Some v /\
        out !! voxel_index size x y z
          = Some (clampCast OutputType
                    (if SFgeb (SFabs (to_WorkType InputType v))
                          (double_to_WorkType threshold)
                     then to_WorkType InputType v
                     else WorkType_zero)) /\
        (SFltb (SFabs (to_WorkType InputType v))
           (double_to_WorkType threshold) = true ->
         out !! voxel_index size x y z = Some (sample_zero OutputType)).
Proof.
  intros Hg Hin Hout.
  destruct (stage_kernel_voxel InputType OutputType inputImage size threshold
              outputImage Hg Hin Hout) as (out & E & Hvox).
  exists out. split; [exact E|]. intros x y z Hv.
  destruct (Hvox x y z Hv) as (v & Hi & Ho).
  exists v. split; [exact Hi|]. split; [exact Ho|].
  intros Hlt. rewrite Ho. unfold threshold_pixel.
  rewrite threshold_value_zero by (apply SFltb_not_geb, Hlt).
  now rewrite clampCast_zero.
Qed.

Lemma C1_witness :
  geometry_ok (Vec3s 2 1 1) /\
  buffer_fits ([50; -5] : list (sample T_int16_t)) (Vec3s 2 1 1) /\
  buffer_fits ([7; 7] : list (sample T_uint8_t)) (Vec3s 2 1 1) /\
  exists out,
    stage_kernel T_int16_t T_uint8_t [50; -5] (Vec3s 2 1 1) (double_of_Z 10)
      [7; 7] = Some out /\
    forall x y z, in_volume (Vec3s 2 1 1) x y z ->
      exists v : sample T_int16_t,
        ([50; -5] : list (sample T_int16_t)) !! voxel_index (Vec3s 2 1 1) x y z
          = Some v /\
        out !! voxel_index (Vec3s 2 1 1) x y z
          = Some (clampCast T_uint8_t
                    (if SFgeb (SFabs (to_WorkType T_int16_t v))
                          (double_to_WorkType (double_of_Z 10))
                     then to_WorkType T_int16_t v
                     else WorkType_zero)) /\
        (SFltb (SFabs (to_WorkType T_int16_t v))
           (double_to_WorkType (double_of_Z 10)) = true ->
         out !! voxel_index (Vec3s 2 1 1) x y z = Some (sample_zero T_uint8_t)).
Proof.
  assert (geometry_ok (Vec3s 2 1 1)) as Hg by (unfold geometry_ok; cbn; lia).
  split; [exact Hg|]. split; [reflexivity|]. split; [reflexivity|].
  apply (C1_kernel_thresholds_every_voxel T_int16_t T_uint8_t [50; -5]
           (Vec3s 2 1 1) (double_of_Z 10) [7; 7] Hg); reflexivity.
Defined.

(** C2.  The comparison is inclusive: a voxel whose magnitude equals the
    narrowed threshold is written as the clamped cast of the input sample. *)
Theorem C2_boundary_equality_passes (InputType OutputType : SampleType)
    (inputImage : list (sample InputType)) (size : vec3s) (threshold : double)
    (outputImage : list (sample OutputType)) :
  geometry_ok size -> buffer_fits inputImage size ->
  buffer_fits outputImage size ->
  exists out,
    stage_kernel InputType OutputType inputImage size threshold outputImage
      = Some out /\
    forall x y z, in_volume size x y z ->
      exists v,
        inputImage !! voxel_index size x y z = Some v /\
        (SFcompare (SFabs (to_WorkType InputType v))
           (double_to_WorkType threshold) = Some Eq ->
         out !! voxel_index size x y z
           = Some (clampCast OutputType (to_WorkType InputType v))).
Proof.
  intros Hg Hin Hout.
  destruct (stage_kernel_voxel InputType OutputType inputImage size threshold
              outputImage Hg Hin Hout) as (out & E & Hvox).
  exists out. split; [exact E|]. intros x y z Hv.
  destruct (Hvox x y z Hv) as (v & Hi & Ho).
  exists v. split; [exact Hi|]. intros Heq. rewrite Ho.
  unfold threshold_pixel.
  now rewrite threshold_value_pass by (apply SFgeb_of_eq, Heq).
Qed.

Lemma C2_witness :
  geometry_ok (Vec3s 3 1 1) /\
  buffer_fits ([10; -10; 9] : list (sample T_int16_t)) (Vec3s 3 1 1) /\
  buffer_fits ([7; 7; 7] : list (sample T_int16_t)) (Vec3s 3 1 1) /\
  exists out,
    stage_kernel T_int16_t T_int16_t [10; -10; 9] (Vec3s 3 1 1)
      (double_of_Z 10) [7; 7; 7] = Some out /\
    forall x y z, in_volume (Vec3s 3 1 1) x y z ->
      exists v : sample T_int16_t,
        ([10; -10; 9] : list (sample T_int16_t))
          !! voxel_index (Vec3s 3 1 1) x y z = Some v /\
        (SFcompare (SFabs (to_WorkType T_int16_t v))
           (double_to_WorkType (double_of_Z 10)) = Some Eq ->
         out !! voxel_index (Vec3s 3 1 1) x y z
           = Some (clampCast T_int16_t (to_WorkType T_int16_t v))).
Proof.
  assert (geometry_ok (Vec3s 3 1 1)) as Hg by (unfold geometry_ok; cbn; lia).
  split; [exact Hg|]. split; [reflexivity|]. split; [reflexivity|].
  apply (C2_boundary_equality_passes T_int16_t T_int16_t [10; -10; 9]
           (Vec3s 3 1 1) (double_of_Z 10) [7; 7; 7] Hg); reflexivity.
Defined.

(** C3.  The narrowing saturates: a voxel that passes the threshold and whose
    value lies above the largest value of the output type is written as that
    largest value. *)
Theorem C3_narrowing_saturates_at_max (InputType OutputType : SampleType)
    (inputImage : list (sample InputType)) (size : vec3s) (threshold : double)
    (outputImage : list (sample OutputType)) :
  geometry_ok size -> buffer_fits inputImage size ->
  buffer_fits outputImage size ->
  exists out,
    stage_kernel InputType OutputType inputImage size threshold outputImage
      = Some out /\
    forall x y z, in_volume size x y z ->
      exists v,
        inputImage !! voxel_index size x y z = Some v /\
        (SFgeb (SFabs (to_WorkType InputType v))
           (double_to_WorkType threshold) = true ->
         SFltb (to_WorkType OutputType (limit_max OutputType))
           (to_WorkType InputType v) = true ->
         out !! voxel_index size x y z = Some (limit_max OutputType)).
Proof.
  intros Hg Hin Hout.
  destruct (stage_kernel_voxel InputType OutputType inputImage size threshold
              outputImage Hg Hin Hout) as (out & E & Hvox).
  exists out. split; [exact E|]. intros x y z Hv.
  destruct (Hvox x y z Hv) as (v & Hi & Ho).
  exists v. split; [exact Hi|]. intros Hpass Habove. rewrite Ho.
  unfold threshold_pixel. rewrite threshold_value_pass by exact Hpass.
  now rewrite clampCast_above.
Qed.

Lemma C3_witness :
  geometry_ok (Vec3s 1 1 1) /\
  buffer_fits ([float_of_Z 1000] : list (sample T_float)) (Vec3s 1 1 1) /\
  buffer_fits ([7] : list (sample T_uint8_t)) (Vec3s 1 1 1) /\
  exists out,
    stage_kernel T_float T_uint8_t [float_of_Z 1000] (Vec3s 1 1 1)
      (double_of_Z 0) [7] = Some out /\
    forall x y z, in_volume (Vec3s 1 1 1) x y z ->
      exists v : sample T_float,
        ([float_of_Z 1000] : list (sample T_float))
          !! voxel_index (Vec3s 1 1 1) x y z = Some v /\
        (SFgeb (SFabs (to_WorkType T_float v))
           (double_to_WorkType (double_of_Z 0)) = true ->
         SFltb (to_WorkType T_uint8_t (limit_max T_uint8_t))
           (to_WorkType T_float v) = true ->
         out !! voxel_index (Vec3s 1 1 1) x y z = Some (limit_max T_uint8_t)).
Proof.
  assert (geometry_ok (Vec3s 1 1 1)) as Hg by (unfold geometry_ok; cbn; lia).
  split; [exact Hg|]. split; [reflexivity|]. split; [reflexivity|].
  apply (C3_narrowing_saturates_at_max T_float T_uint8_t [float_of_Z 1000]
           (Vec3s 1 1 1) (double_of_Z 0) [7] Hg); reflexivity.
Defined.

(** The example of the claim, evaluated: 1000.0 into 8-bit unsigned with
    threshold 0 gives 255. *)
Example saturation_example :
  stage_kernel T_float T_uint8_t [float_of_Z 1000] (Vec3s 1 1 1)
    (double_of_Z 0) [7] = Some [255].
Proof. vm_compute. reflexivity. Qed.

(** C4, as stated, fails: for geometry (1,1,1), the sample -300.0, threshold
    100.0 and 8-bit unsigned output, the stage does not write 255. *)
Lemma C4_counterexample :
  run_stage T_float T_uint8_t (fun _ => 7) negative_volume (Vec3s 1 1 1)
    (double_of_Z 100) <> Some [255].
Proof. vm_compute. discriminate. Qed.

(** C4, amended.  For geometry (1,1,1), the sample -300.0, threshold 100.0 and
    8-bit unsigned output, the sample passes the threshold (its magnitude 300
    is at least 100), the value handed to the clamped cast is -300.0 itself,
    and the cast yields 0, the smallest value of the output type: the stage
    writes 0. *)
Theorem C4_negative_sample_clamps_to_zero :
  SFgeb (SFabs (to_WorkType T_float (float_of_Z (-300))))
    (double_to_WorkType (double_of_Z 100)) = true /\
  threshold_value (double_to_WorkType (double_of_Z 100))
    (to_WorkType T_float (float_of_Z (-300))) = float_of_Z (-300) /\
  clampCast T_uint8_t (float_of_Z (-300)) = limit_min T_uint8_t /\
  stage_kernel T_float T_uint8_t [float_of_Z (-300)] (Vec3s 1 1 1)
    (double_of_Z 100) [7] = Some [0] /\
  run_stage T_float T_uint8_t (fun _ => 7) negative_volume (Vec3s 1 1 1)
    (double_of_Z 100) = Some [0].
Proof. vm_compute. auto 6. Qed.

(** C10.  With a threshold that is zero or negative after narrowing, every
    voxel whose widened sample is not NaN is written as the clamped cast of
    that sample; when no sample is NaN the whole output is the element-wise
    clamped cast of the input. *)
Theorem C10_nonpositive_threshold_zeroes_nothing
    (InputType OutputType : SampleType)
    (inputImage : list (sample InputType)) (size : vec3s) (threshold : double)
    (outputImage : list (sample OutputType)) :
  geometry_ok size -> buffer_fits inputImage size ->
  buffer_fits outputImage size ->
  SFleb (double_to_WorkType threshold) WorkType_zero = true ->
  exists out,
    stage_kernel InputType OutputType inputImage size threshold outputImage
      = Some out /\
    (forall x y z, in_volume size x y z ->
       exists v,
         inputImage !! voxel_index size x y z = Some v /\
         (is_nan (to_WorkType InputType v) = false ->
          SFgeb (SFabs (to_WorkType InputType v))
            (double_to_WorkType threshold) = true /\
          out !! voxel_index size x y z
            = Some (clampCast OutputType (to_WorkType InputType v)))) /\
    (Forall (fun v => is_nan (to_WorkType InputType v) = false) inputImage ->
     out = (fun v => clampCast OutputType (to_WorkType InputType v))
             <$> inputImage).
Proof.
  intros Hg Hin Hout Ht.
  destruct (stage_kernel_voxel InputType OutputType inputImage size threshold
              outputImage Hg Hin Hout) as (out & E & Hvox).
  exists out. split; [exact E|]. split.
  - intros x y z Hv. destruct (Hvox x y z Hv) as (v & Hi & Ho).
    exists v. split; [exact Hi|]. intros Hn.
    pose proof (SFgeb_abs_nonpos _ _ Ht Hn) as Hpass.
    split; [exact Hpass|]. rewrite Ho. unfold threshold_pixel.
    now rewrite threshold_value_pass.
  - intros Hall.
    rewrite stage_kernel_correct in E by auto. injection E as <-.
    apply list_fmap_ext. intros i v Hi.
    rewrite Forall_forall in Hall.
    unfold threshold_pixel. rewrite threshold_value_pass; [reflexivity|].
    apply SFgeb_abs_nonpos; [exact Ht|].
    apply Hall. eapply list_elem_of_lookup_2, Hi.
Qed.

Lemma C10_witness :
  geometry_ok (Vec3s 3 1 1) /\
  buffer_fits ([50; -5; 0] : list (sample T_int16_t)) (Vec3s 3 1 1) /\
  buffer_fits (float_of_Z <$> [7; 7; 7]) (Vec3s 3 1 1) /\
  SFleb (double_to_WorkType (double_of_Z (-1))) WorkType_zero = true /\
  exists out,
    stage_kernel T_int16_t T_float [50; -5; 0] (Vec3s 3 1 1) (double_of_Z (-1))
      (float_of_Z <$> [7; 7; 7]) = Some out /\
    (forall x y z, in_volume (Vec3s 3 1 1) x y z ->
       exists v : sample T_int16_t,
         ([50; -5; 0] : list (sample T_int16_t))
           !! voxel_index (Vec3s 3 1 1) x y z = Some v /\
         (is_nan (to_WorkType T_int16_t v) = false ->
          SFgeb (SFabs (to_WorkType T_int16_t v))
            (double_to_WorkType (double_of_Z (-1))) = true /\
          out !! voxel_index (Vec3s 3 1 1) x y z
            = Some (clampCast T_float (to_WorkType T_int16_t v)))) /\
    (Forall (fun v => is_nan (to_WorkType T_int16_t v) = false)
       ([50; -5; 0] : list (sample T_int16_t)) ->
     out = (fun v => clampCast T_float (to_WorkType T_int16_t v))
             <$> [50; -5; 0]).
Proof.
  assert (geometry_ok (Vec3s 3 1 1)) as Hg by (unfold geometry_ok; cbn; lia).
  split; [exact Hg|]. split; [reflexivity|]. split; [reflexivity|].
  split; [reflexivity|].
  apply (C10_nonpositive_threshold_zeroes_nothing T_int16_t T_float
           [50; -5; 0] (Vec3s 3 1 1) (double_of_Z (-1))
           (float_of_Z <$> [7; 7; 7]) Hg); reflexivity.
Defined.

(** C8.  A voxel whose magnitude is at least the threshold is written as the
    clamped cast of its input sample.  With the same sample type on both
    sides and threshold 0, running the launch on its own output reproduces
    that output. *)
Theorem C8_pass_through_is_idempotent (InputType OutputType : SampleType)
    (inputImage : list (sample InputType)) (size : vec3s) (threshold : double)
    (outputImage : list (sample OutputType))
    (image first second : list (sample OutputType)) :
  geometry_ok size -> buffer_fits inputImage size ->
  buffer_fits outputImage size ->
  buffer_fits image size -> buffer_fits first size ->
  buffer_fits second size ->
  Forall (fun v => sample_ok OutputType v = true) image ->
  (exists out,
     stage_kernel InputType OutputType inputImage size threshold outputImage
       = Some out /\
     forall x y z, in_volume size x y z ->
       exists v,
         inputImage !! voxel_index size x y z = Some v /\
         (SFgeb (SFabs (to_WorkType InputType v))
            (double_to_WorkType threshold) = true ->
          out !! voxel_index size x y z
            = Some (clampCast OutputType (to_WorkType InputType v)))) /\
  (exists once,
     stage_kernel OutputType OutputType image size (double_of_Z 0) first
       = Some once /\
     stage_kernel OutputType OutputType once size (double_of_Z 0) second
       = Some once).
Proof.
  intros Hg Hin Hout Him H1 H2 Hok. split.
  - destruct (stage_kernel_voxel InputType OutputType inputImage size threshold
                outputImage Hg Hin Hout) as (out & E & Hvox).
    exists out. split; [exact E|]. intros x y z Hv.
    destruct (Hvox x y z Hv) as (v & Hi & Ho).
    exists v. split; [exact Hi|]. intros Hpass. rewrite Ho.
    unfold threshold_pixel. now rewrite threshold_value_pass.
  - eexists. split; [apply stage_kernel_correct; auto|].
    rewrite stage_kernel_correct; auto.
    + f_equal. rewrite <- list_fmap_compose. apply list_fmap_ext.
      intros i v Hi. cbn [compose].
      rewrite Forall_forall in Hok.
      apply threshold_pixel_idem; [reflexivity|].
      apply Hok. eapply list_elem_of_lookup_2, Hi.
    + unfold buffer_fits in *. rewrite length_fmap. exact Him.
Qed.

Lemma C8_witness :
  geometry_ok (Vec3s 2 1 1) /\
  buffer_fits ([50; -5] : list (sample T_int16_t)) (Vec3s 2 1 1) /\
  buffer_fits (float_of_Z <$> [7; 7]) (Vec3s 2 1 1) /\
  buffer_fits ([S754_infinity false; float_of_Z (-3)] : list (sample T_float))
    (Vec3s 2 1 1) /\
  Forall (fun v => sample_ok T_float v = true)
    ([S754_infinity false; float_of_Z (-3)] : list (sample T_float)) /\
  (exists out,
     stage_kernel T_int16_t T_float [50; -5] (Vec3s 2 1 1) (double_of_Z 10)
       (float_of_Z <$> [7; 7]) = Some out /\
     forall x y z, in_volume (Vec3s 2 1 1) x y z ->
       exists v : sample T_int16_t,
         ([50; -5] : list (sample T_int16_t))
           !! voxel_index (Vec3s 2 1 1) x y z = Some v /\
         (SFgeb (SFabs (to_WorkType T_int16_t v))
            (double_to_WorkType (double_of_Z 10)) = true ->
          out !! voxel_index (Vec3s 2 1 1) x y z
            = Some (clampCast T_float (to_WorkType T_int16_t v)))) /\
  (exists once,
     stage_kernel T_float T_float [S754_infinity false; float_of_Z (-3)]
       (Vec3s 2 1 1) (double_of_Z 0) (float_of_Z <$> [7; 7]) = Some once /\
     stage_kernel T_float T_float once (Vec3s 2 1 1) (double_of_Z 0)
       (float_of_Z <$> [7; 7]) = Some once).
Proof.
  assert (geometry_ok (Vec3s 2 1 1)) as Hg by (unfold geometry_ok; cbn; lia).
  assert (Forall (fun v => sample_ok T_float v = true)
            ([S754_infinity false; float_of_Z (-3)] : list (sample T_float)))
    as Hok by (repeat constructor).
  split; [exact Hg|]. split; [reflexivity|]. split; [reflexivity|].
  split; [reflexivity|]. split; [exact Hok|].
  apply (C8_pass_through_is_idempotent T_int16_t T_float [50; -5]
           (Vec3s 2 1 1) (double_of_Z 10) (float_of_Z <$> [7; 7])
           [S754_infinity false; float_of_Z (-3)]
           (float_of_Z <$> [7; 7]) (float_of_Z <$> [7; 7]) Hg);
    solve [reflexivity | exact Hok].
Defined.

(** * The claims about the driver *)

(** C5.  [process] copies the input to the accelerator exactly when the input
    is host-resident.  A host-resident input is copied into a new object and
    the launch reads the copy; otherwise the launch reads the input object
    itself and the only new object is the output.  Neither [process] nor the
    launch it enqueues changes the input object. *)
Theorem C5_migration_iff_host_resident (InputType OutputType : SampleType)
    (junk : nat -> sample OutputType) (imageData : shared_ptr) (size : vec3s)
    (threshold : double) (w : World) (c : Container InputType) :
  deref InputType (objects w) imageData = Some c ->
  exists outImageData w' k,
    process InputType OutputType junk imageData size threshold w
      = Some (outImageData, w') /\
    pending w' = pending w ++ [(getStream c, k)] /\
    (migrations (events w') = S (migrations (events w))
     <-> isGPU c = false /\ isBoth c = false) /\
    (migrations (events w') = migrations (events w)
     <-> isGPU c = true \/ isBoth c = true) /\
    (isGPU c = false /\ isBoth c = false ->
     objects w !! k_inputImage k = None /\
     deref InputType (objects w') (k_inputImage k)
       = Some (Container_copy LocationGpu c)) /\
    (isGPU c = true \/ isBoth c = true ->
     k_inputImage k = imageData /\
     forall q, q <> outImageData -> objects w' !! q = objects w !! q) /\
    objects w' !! imageData = objects w !! imageData /\
    (forall objs, run_launch k (objects w') = Some objs ->
       objs !! imageData = objects w !! imageData).
Proof.
  intros Hc.
  pose proof (deref_Some_lookup _ _ _ _ Hc) as Hlook.
  destruct (decide (c_location c = LocationHost)) as [Hloc|Hloc].
  - rewrite (process_host _ _ junk _ size threshold _ c Hc Hloc). cbn zeta.
    set (p1 := fresh (dom (objects w))).
    set (objs1 := <[p1 := existT InputType (Container_copy LocationGpu c)]> (objects w)).
    set (p2 := fresh (dom objs1)).
    assert (objects w !! p1 = None) as F1 by apply fresh_unused.
    assert (objs1 !! p2 = None) as F2 by apply fresh_unused.
    assert (p2 <> p1) as N21.
    { intros E. rewrite E in F2. unfold objs1 in F2.
      rewrite lookup_insert_eq in F2. discriminate. }
    assert (objects w !! p2 = None) as F2'.
    { unfold objs1 in F2. rewrite lookup_insert_ne in F2 by congruence. exact F2. }
    pose proof (lookup_used_unused _ _ _ _ Hlook F1) as Ni1.
    pose proof (lookup_used_unused _ _ _ _ Hlook F2') as Ni2.
    assert (isGPU c = false /\ isBoth c = false) as Hh
      by (unfold isGPU, isBoth; rewrite Hloc; auto).
    assert ((<[p2 := existT OutputType
                       (Container_alloc OutputType LocationGpu (c_stream c)
                          (process_numel size) junk)]> objs1)
              !! imageData = objects w !! imageData) as Hsame.
    { unfold objs1. rewrite !lookup_insert_ne by congruence. reflexivity. }
    eexists _, _, _. split; [reflexivity|]. cbn [objects pending events].
    split; [reflexivity|].
    rewrite !migrations_app. cbn [migrations List.filter is_migrate length].
    split; [split; [auto|lia]|].
    split; [split; [lia|destruct Hh; intros [?|?]; congruence]|].
    split.
    { intros _. cbn [process_launch k_inputImage]. split; [exact F1|].
      rewrite deref_insert_ne by congruence. apply deref_insert_eq. }
    split; [destruct Hh; intros [?|?]; congruence|].
    split; [exact Hsame|].
    intros objs Hrun.
    rewrite (run_launch_frame _ _ _ imageData Hrun)
      by (cbn [process_launch k_outputImage]; congruence).
    exact Hsame.
  - rewrite (process_device _ _ junk _ size threshold _ c Hc Hloc). cbn zeta.
    set (p2 := fresh (dom (objects w))).
    assert (objects w !! p2 = None) as F2 by apply fresh_unused.
    pose proof (lookup_used_unused _ _ _ _ Hlook F2) as Ni2.
    assert (isGPU c = true \/ isBoth c = true) as Hd
      by (unfold isGPU, isBoth; destruct (c_location c); auto; congruence).
    eexists _, _, _. split; [reflexivity|]. cbn [objects pending events].
    split; [reflexivity|].
    rewrite !migrations_app. cbn [migrations List.filter is_migrate length].
    split; [split; [lia|destruct Hd; intros [? ?]; congruence]|].
    split; [split; [auto|lia]|].
    split; [destruct Hd; intros [? ?]; congruence|].
    split.
    { intros _. split; [reflexivity|]. intros q Hq.
      apply lookup_insert_ne. congruence. }
    split; [apply lookup_insert_ne; congruence|].
    intros objs Hrun.
    rewrite (run_launch_frame _ _ _ imageData Hrun)
      by (cbn [process_launch k_outputImage]; congruence).
    apply lookup_insert_ne. congruence.
Qed.

Lemma C5_witness :
  deref T_int16_t (objects (world_of host_volume)) 0%nat = Some host_volume /\
  exists outImageData w' k,
    process T_int16_t T_uint8_t (fun _ => 7) 0%nat (Vec3s 2 1 1)
      (double_of_Z 10) (world_of host_volume) = Some (outImageData, w') /\
    pending w' = pending (world_of host_volume) ++ [(getStream host_volume, k)] /\
    (migrations (events w') = S (migrations (events (world_of host_volume)))
     <-> isGPU host_volume = false /\ isBoth host_volume = false) /\
    (migrations (events w') = migrations (events (world_of host_volume))
     <-> isGPU host_volume = true \/ isBoth host_volume = true) /\
    (isGPU host_volume = false /\ isBoth host_volume = false ->
     objects (world_of host_volume) !! k_inputImage k = None /\
     deref T_int16_t (objects w') (k_inputImage k)
       = Some (Container_copy LocationGpu host_volume)) /\
    (isGPU host_volume = true \/ isBoth host_volume = true ->
     k_inputImage k = 0%nat /\
     forall q, q <> outImageData ->
       objects w' !! q = objects (world_of host_volume) !! q) /\
    objects w' !! 0%nat = objects (world_of host_volume) !! 0%nat /\
    (forall objs, run_launch k (objects w') = Some objs ->
       objs !! 0%nat = objects (world_of host_volume) !! 0%nat).
Proof.
  assert (deref T_int16_t (objects (world_of host_volume)) 0%nat
          = Some host_volume) as Hc by reflexivity.
  split; [exact Hc|].
  exact (C5_migration_iff_host_resident T_int16_t T_uint8_t (fun _ => 7) 0%nat
           (Vec3s 2 1 1) (double_of_Z 10) (world_of host_volume) host_volume Hc).
Defined.

(** C6.  When the input holds [width*height*depth] elements, the output
    container allocated by [process] holds exactly as many, it is bound to the
    stream of the container the launch reads (the input, or its copy), and the
    launch uses the one geometry for both buffers. *)
Theorem C6_output_shape_and_stream (InputType OutputType : SampleType)
    (junk : nat -> sample OutputType) (imageData : shared_ptr) (size : vec3s)
    (threshold : double) (w : World) (c : Container InputType) :
  deref InputType (objects w) imageData = Some c ->
  numel c = vec_x size * vec_y size * vec_z size ->
  vec_x size * vec_y size * vec_z size < 2 ^ 64 ->
  exists outImageData w' k input output,
    process InputType OutputType junk imageData size threshold w
      = Some (outImageData, w') /\
    pending w' = pending w ++ [(getStream input, k)] /\
    deref InputType (objects w') (k_inputImage k) = Some input /\
    k_outputImage k = outImageData /\
    deref OutputType (objects w') outImageData = Some output /\
    numel output = vec_x size * vec_y size * vec_z size /\
    numel output = numel c /\
    numel input = numel c /\
    getStream output = getStream input /\
    k_size k = size.
Proof.
  intros Hc Hn Hv.
  assert (0 <= vec_x size * vec_y size * vec_z size) as Hn0
    by (rewrite <- Hn; unfold numel; lia).
  assert (numel (Container_alloc OutputType LocationGpu (c_stream c)
                   (process_numel size) junk)
          = vec_x size * vec_y size * vec_z size) as Hout.
  { rewrite Container_alloc_numel; rewrite process_numel_small; lia. }
  pose proof (deref_Some_lookup _ _ _ _ Hc) as Hlook.
  destruct (decide (c_location c = LocationHost)) as [Hloc|Hloc].
  - rewrite (process_host _ _ junk _ size threshold _ c Hc Hloc). cbn zeta.
    set (p1 := fresh (dom (objects w))).
    set (objs1 := <[p1 := existT InputType (Container_copy LocationGpu c)]> (objects w)).
    set (p2 := fresh (dom objs1)).
    assert (objs1 !! p2 = None) as F2 by apply fresh_unused.
    assert (p1 <> p2) as N12.
    { intros E. rewrite <- E in F2. unfold objs1 in F2.
      rewrite lookup_insert_eq in F2. discriminate. }
    exists p2. eexists _, _, (Container_copy LocationGpu c), _.
    split; [reflexivity|]. cbn [objects pending].
    split; [reflexivity|]. cbn [process_launch k_inputImage k_outputImage k_size].
    split; [rewrite deref_insert_ne by exact N12; apply deref_insert_eq|].
    split; [reflexivity|].
    split; [apply deref_insert_eq|].
    split; [exact Hout|]. split; [congruence|]. auto.
  - rewrite (process_device _ _ junk _ size threshold _ c Hc Hloc). cbn zeta.
    set (p2 := fresh (dom (objects w))).
    assert (objects w !! p2 = None) as F2 by apply fresh_unused.
    pose proof (lookup_used_unused _ _ _ _ Hlook F2) as Ni2.
    exists p2. eexists _, _, c, _.
    split; [reflexivity|]. cbn [objects pending].
    split; [reflexivity|]. cbn [process_launch k_inputImage k_outputImage k_size].
    split; [rewrite deref_insert_ne by exact Ni2; exact Hc|].
    split; [reflexivity|].
    split; [apply deref_insert_eq|].
    split; [exact Hout|]. split; [congruence|]. auto.
Qed.

Lemma C6_witness :
  deref T_int16_t (objects (world_of device_volume)) 0%nat
    = Some device_volume /\
  numel device_volume = 2 * 1 * 1 /\
  2 * 1 * 1 < 2 ^ 64 /\
  exists outImageData w' k input output,
    process T_int16_t T_uint8_t (fun _ => 7) 0%nat (Vec3s 2 1 1)
      (double_of_Z 10) (world_of device_volume) = Some (outImageData, w') /\
    pending w' = pending (world_of device_volume) ++ [(getStream input, k)] /\
    deref T_int16_t (objects w') (k_inputImage k) = Some input /\
    k_outputImage k = outImageData /\
    deref T_uint8_t (objects w') outImageData = Some output /\
    numel output = 2 * 1 * 1 /\
    numel output = numel device_volume /\
    numel input = numel device_volume /\
    getStream output = getStream input /\
    k_size k = Vec3s 2 1 1.
Proof.
  assert (deref T_int16_t (objects (world_of device_volume)) 0%nat
          = Some device_volume) as Hc by reflexivity.
  split; [exact Hc|]. split; [reflexivity|]. split; [lia|].
  exact (C6_output_shape_and_stream T_int16_t T_uint8_t (fun _ => 7) 0%nat
           (Vec3s 2 1 1) (double_of_Z 10) (world_of device_volume)
           device_volume Hc eq_refl ltac:(cbn; lia)).
Defined.

(** C7.  Two runs of the stage, one on a host-resident input and one on an
    accelerator-resident input with the same contents, geometry and
    threshold, leave output containers with equal contents once each stream
    has drained; the contents of the freshly allocated storage and the rest
    of the two worlds do not matter. *)
Theorem C7_residency_transparency (InputType OutputType : SampleType)
    (junk1 junk2 : nat -> sample OutputType) (p1 p2 : shared_ptr)
    (size : vec3s) (threshold : double) (w1 w2 : World)
    (c1 c2 : Container InputType) :
  pending w1 = [] -> pending w2 = [] ->
  deref InputType (objects w1) p1 = Some c1 ->
  deref InputType (objects w2) p2 = Some c2 ->
  c_location c1 = LocationHost -> c_location c2 = LocationGpu ->
  c_buffer c1 = c_buffer c2 ->
  geometry_ok size -> buffer_fits (c_buffer c1) size ->
  exists o1 w1' o2 w2' r1 r2,
    process_and_drain InputType OutputType junk1 p1 size threshold w1
      = Some (o1, w1') /\
    process_and_drain InputType OutputType junk2 p2 size threshold w2
      = Some (o2, w2') /\
    deref OutputType (objects w1') o1 = Some r1 /\
    deref OutputType (objects w2') o2 = Some r2 /\
    pending w1' = [] /\ pending w2' = [] /\
    c_buffer r1 = c_buffer r2.
Proof.
  intros Q1 Q2 H1 H2 _ _ Hbuf Hg Hfit.
  destruct (process_and_drain_spec InputType OutputType junk1 p1 size threshold
              w1 c1 Q1 H1 Hg Hfit) as (o1 & w1' & E1 & D1 & _ & _ & P1).
  destruct (process_and_drain_spec InputType OutputType junk2 p2 size threshold
              w2 c2 Q2 H2 Hg ltac:(rewrite <- Hbuf; exact Hfit))
    as (o2 & w2' & E2 & D2 & _ & _ & P2).
  eexists o1, w1', o2, w2', _, _.
  split; [exact E1|]. split; [exact E2|]. split; [exact D1|].
  split; [exact D2|]. split; [exact P1|]. split; [exact P2|].
  cbn [c_buffer]. now rewrite Hbuf.
Qed.

Lemma C7_witness :
  pending (world_of host_volume) = [] /\
  pending (world_of device_volume) = [] /\
  deref T_int16_t (objects (world_of host_volume)) 0%nat = Some host_volume /\
  deref T_int16_t (objects (world_of device_volume)) 0%nat
    = Some device_volume /\
  c_location host_volume = LocationHost /\
  c_location device_volume = LocationGpu /\
  c_buffer host_volume = c_buffer device_volume /\
  geometry_ok (Vec3s 2 1 1) /\
  buffer_fits (c_buffer host_volume) (Vec3s 2 1 1) /\
  exists o1 w1' o2 w2' r1 r2,
    process_and_drain T_int16_t T_uint8_t (fun _ => 7) 0%nat (Vec3s 2 1 1)
      (double_of_Z 10) (world_of host_volume) = Some (o1, w1') /\
    process_and_drain T_int16_t T_uint8_t (fun _ => 9) 0%nat (Vec3s 2 1 1)
      (double_of_Z 10) (world_of device_volume) = Some (o2, w2') /\
    deref T_uint8_t (objects w1') o1 = Some r1 /\
    deref T_uint8_t (objects w2') o2 = Some r2 /\
    pending w1' = [] /\ pending w2' = [] /\
    c_buffer r1 = c_buffer r2.
Proof.
  assert (geometry_ok (Vec3s 2 1 1)) as Hg by (unfold geometry_ok; cbn; lia).
  do 7 (split; [reflexivity|]). split; [exact Hg|]. split; [reflexivity|].
  exact (C7_residency_transparency T_int16_t T_uint8_t (fun _ => 7)
           (fun _ => 9) 0%nat 0%nat (Vec3s 2 1 1) (double_of_Z 10)
           (world_of host_volume) (world_of device_volume)
           host_volume device_volume eq_refl eq_refl eq_refl eq_refl
           eq_refl eq_refl eq_refl Hg eq_refl).
Defined.

(** * Bounds of the accesses *)

(** For the threads the driver launches, the cell a thread copies is the voxel
    at its own global coordinates. *)
Lemma thread_coord_in_grid (size : vec3s) (bIdx tIdx : dim3) :
  geometry_ok size ->
  bIdx ∈ dim3_coords (process_gridSize size) ->
  tIdx ∈ dim3_coords process_blockSize ->
  vec3s_add (tile_origin process_blockSize bIdx) (dim3_vec tIdx)
  = thread_coord (MkThreadCtx process_blockSize bIdx tIdx).
Proof.
  intros Hg Hb Ht. rewrite process_gridSize_small in Hb by exact Hg.
  destruct Hg as (Hx & Hy & Hz & _).
  apply elem_of_dim3_coords in Hb, Ht.
  cbn [dim_x dim_y dim_z process_blockSize] in Hb, Ht.
  destruct Hb as (Bx & By & Bz), Ht as (Tx & Ty & Tz).
  pose proof (Z.div_mod (vec_x size + 31) 32 ltac:(lia)) as Ex.
  pose proof (Z.mod_pos_bound (vec_x size + 31) 32 ltac:(lia)) as Mx.
  pose proof (Z.div_mod (vec_y size + 3) 4 ltac:(lia)) as Ey.
  pose proof (Z.mod_pos_bound (vec_y size + 3) 4 ltac:(lia)) as My.
  unfold vec3s_add, tile_origin, thread_coord, dim3_vec, process_blockSize.
  cbn [vec_x vec_y vec_z dim_x dim_y dim_z blockDim blockIdx threadIdx].
  rewrite !(u32_small (_ * _)) by lia.
  rewrite !u32_small by lia. rewrite !size_t_small by lia. reflexivity.
Qed.

Lemma load_Some_bound {A} (buf : list A) (i : Z) (v : A) :
  0 <= i -> load buf i = Some v -> 0 <= i < Z.of_nat (length buf).
Proof.
  intros Hi H. apply lookup_lt_Some in H. lia.
Qed.

Lemma store_Some_bound {A} (buf buf' : list A) (i : Z) (v : A) :
  0 <= i -> store buf i v = Some buf' -> 0 <= i < Z.of_nat (length buf).
Proof.
  unfold store. intros Hi H. destruct (decide _); [lia|discriminate].
Qed.

Lemma Buffer3_offset_nonneg (size p : vec3s) : 0 <= Buffer3_offset size p.
Proof. apply size_t_range. Qed.

(** The copy phase reads the backing buffer only for a cell of the tile whose
    voxel lies inside the volume, and then inside the buffer. *)
Lemma processKernel_setup_reads (InputType : SampleType) (t : ThreadCtx)
    (inputImage : list (sample InputType)) (size : vec3s)
    (sm sm' : list (option (sample InputType))) (tr : list Access) (i : Z) :
  processKernel_setup InputType t inputImage size sm = Some (sm', tr) ->
  GlobalRead i ∈ tr ->
  let c := dim3_vec (threadIdx t) in
  let g := vec3s_add (tile_origin (blockDim t) (blockIdx t)) c in
  vec3s_lt c (dim3_vec (blockDim t)) = true /\
  vec3s_lt g size = true /\
  i = Buffer3_offset size g /\
  0 <= i < Z.of_nat (length inputImage).
Proof.
  cbn zeta. unfold processKernel_setup, CachedBuffer3_fill, inputBuffer_of.
  cbn [m_buffer m_size m_cacheSize m_cacheOffset].
  fold (dim3_vec (threadIdx t)) (dim3_vec (blockDim t))
       (tile_origin (blockDim t) (blockIdx t)).
  destruct (vec3s_lt (dim3_vec (threadIdx t)) (dim3_vec (blockDim t))) eqn:Hc;
    cbn [andb]; [|intros [= <- <-]; inversion 1].
  destruct (vec3s_lt _ size) eqn:Hg; [|intros [= <- <-]; inversion 1].
  destruct (load inputImage _) as [v|] eqn:Hv; [|discriminate].
  cbn [mbind option_bind].
  destruct (store sm _ _) as [sm1|]; [|discriminate].
  cbn [mbind option_bind]. intros [= <- <-] Hin.
  apply elem_of_cons in Hin as [[= ->]|Hin].
  - repeat split; auto.
    + apply Buffer3_offset_nonneg.
    + eapply load_Some_bound; [apply Buffer3_offset_nonneg|exact Hv].
  - apply list_elem_of_singleton in Hin. discriminate.
Qed.

(** After the barrier a thread touches the global buffers only inside them. *)
Lemma processKernel_body_accesses (InputType OutputType : SampleType)
    (t : ThreadCtx) (inputImage : list (sample InputType)) (size : vec3s)
    (threshold : WorkType) (sm : list (option (sample InputType)))
    (out out' : list (sample OutputType)) (tr : list Access) (i : Z) :
  processKernel_body InputType OutputType t inputImage size threshold sm out
    = Some (out', tr) ->
  (GlobalRead i ∈ tr -> 0 <= i < Z.of_nat (length inputImage)) /\
  (GlobalWrite i ∈ tr -> 0 <= i < Z.of_nat (length out)).
Proof.
  unfold processKernel_body.
  destruct (_ && _); [|intros [= <- <-]; split; inversion 1].
  destruct (CachedBuffer3_get _ sm _) as [[v r]|] eqn:Hget; [|discriminate].
  cbn [mbind option_bind]. unfold Buffer3_set.
  destruct (store out _ _) as [out1|] eqn:Hst; [|discriminate].
  cbn [mbind option_bind]. intros [= <- <-].
  unfold CachedBuffer3_get in Hget.
  destruct (_ && _) in Hget.
  - destruct (load sm _) as [[u|]|]; try discriminate.
    injection Hget as <- <-. split.
    + intros [[=]|[[=]|H]%elem_of_cons]%elem_of_cons. inversion H.
    + intros [[=]|[[= ->]|H]%elem_of_cons]%elem_of_cons; [|inversion H].
      eapply store_Some_bound; [apply Buffer3_offset_nonneg|exact Hst].
  - destruct (load (m_buffer _) _) as [u|] eqn:Hu; [|discriminate].
    cbn [mbind option_bind] in Hget. injection Hget as <- <-. split.
    + intros [[= ->]|[[=]|H]%elem_of_cons]%elem_of_cons; [|inversion H].
      eapply load_Some_bound; [apply Buffer3_offset_nonneg|exact Hu].
    + intros [[=]|[[= ->]|H]%elem_of_cons]%elem_of_cons; [|inversion H].
      eapply store_Some_bound; [apply Buffer3_offset_nonneg|exact Hst].
Qed.

(** A thread of the driver's launch whose coordinates fall outside the volume
    touches nothing. *)
Lemma thread_outside_idle (InputType OutputType : SampleType)
    (inputImage : list (sample InputType)) (size : vec3s)
    (threshold : WorkType) (bIdx tIdx : dim3)
    (sm : list (option (sample InputType))) (out : list (sample OutputType)) :
  geometry_ok size ->
  bIdx ∈ dim3_coords (process_gridSize size) ->
  tIdx ∈ dim3_coords process_blockSize ->
  vec3s_lt (thread_coord (MkThreadCtx process_blockSize bIdx tIdx)) size
    = false ->
  processKernel_setup InputType (MkThreadCtx process_blockSize bIdx tIdx)
    inputImage size sm = Some (sm, []) /\
  processKernel_body InputType OutputType
    (MkThreadCtx process_blockSize bIdx tIdx) inputImage size threshold sm out
    = Some (out, []).
Proof.
  intros Hg Hb Ht Hout. split.
  - unfold processKernel_setup, CachedBuffer3_fill, inputBuffer_of.
    cbn [m_buffer m_size m_cacheSize m_cacheOffset blockDim blockIdx threadIdx].
    fold (dim3_vec tIdx) (dim3_vec process_blockSize)
         (tile_origin process_blockSize bIdx).
    rewrite (thread_coord_in_grid size bIdx tIdx Hg Hb Ht), Hout.
    now rewrite andb_false_r.
  - unfold processKernel_body.
    set (p := thread_coord _) in *.
    change ((vec_x p <? vec_x size) && (vec_y p <? vec_y size)
            && (vec_z p <? vec_z size)) with (vec3s_lt p size).
    now rewrite Hout.
Qed.

(** C9.  Every access is guarded.  The launch the driver configures runs to
    completion without any access outside a buffer, partial tiles included.
    A launched thread whose coordinates fall outside the volume performs no
    access at all, neither in the copy phase nor after it.  The copy phase of
    any thread reads the backing buffer only for a cell of its tile whose
    voxel lies inside the volume, at an offset inside the buffer; after the
    barrier every global read and write is at an offset inside its buffer. *)
Theorem C9_accesses_are_bounds_guarded (InputType OutputType : SampleType)
    (inputImage : list (sample InputType)) (size : vec3s) (threshold : double)
    (outputImage : list (sample OutputType)) :
  geometry_ok size -> buffer_fits inputImage size ->
  buffer_fits outputImage size ->
  (exists out,
     stage_kernel InputType OutputType inputImage size threshold outputImage
       = Some out /\ length out = length outputImage) /\
  (forall bIdx tIdx sm out,
     bIdx ∈ dim3_coords (process_gridSize size) ->
     tIdx ∈ dim3_coords process_blockSize ->
     vec3s_lt (thread_coord (MkThreadCtx process_blockSize bIdx tIdx)) size
       = false ->
     processKernel_setup InputType (MkThreadCtx process_blockSize bIdx tIdx)
       inputImage size sm = Some (sm, []) /\
     processKernel_body InputType OutputType
       (MkThreadCtx process_blockSize bIdx tIdx) inputImage size
       (double_to_WorkType threshold) sm out = Some (out, [])) /\
  (forall t sm sm' tr i,
     processKernel_setup InputType t inputImage size sm = Some (sm', tr) ->
     GlobalRead i ∈ tr ->
     vec3s_lt (dim3_vec (threadIdx t)) (dim3_vec (blockDim t)) = true /\
     vec3s_lt (vec3s_add (tile_origin (blockDim t) (blockIdx t))
                 (dim3_vec (threadIdx t))) size = true /\
     i = Buffer3_offset size
           (vec3s_add (tile_origin (blockDim t) (blockIdx t))
              (dim3_vec (threadIdx t))) /\
     0 <= i < vec_x size * vec_y size * vec_z size) /\
  (forall t sm out out' tr i,
     buffer_fits out size ->
     processKernel_body InputType OutputType t inputImage size
       (double_to_WorkType threshold) sm out = Some (out', tr) ->
     GlobalRead i ∈ tr \/ GlobalWrite i ∈ tr ->
     0 <= i < vec_x size * vec_y size * vec_z size).
Proof.
  intros Hg Hin Hout.
  pose proof (geometry_ok_volume size Hg) as [Hn0 Hn].
  split; [apply stage_kernel_safe; auto|].
  split; [intros; apply thread_outside_idle; auto|].
  split.
  - intros t sm sm' tr i Hs Hi.
    destruct (processKernel_setup_reads _ _ _ _ _ _ _ _ Hs Hi)
      as (Hc & Hv & -> & Hb).
    repeat split; auto; try lia. rewrite Hin in Hb. lia.
  - intros t sm out out' tr i Hfit Hb Hi.
    destruct (processKernel_body_accesses _ _ _ _ _ _ _ _ _ _ i Hb) as [Hr Hw].
    destruct Hi as [Hi|Hi].
    + apply Hr in Hi. rewrite Hin in Hi. lia.
    + apply Hw in Hi. rewrite Hfit in Hi. lia.
Qed.

Lemma C9_witness :
  geometry_ok (Vec3s 33 5 1) /\
  buffer_fits (replicate 165 (0 : sample T_uint8_t)) (Vec3s 33 5 1) /\
  buffer_fits (replicate 165 (7 : sample T_uint8_t)) (Vec3s 33 5 1) /\
  (exists out,
     stage_kernel T_uint8_t T_uint8_t (replicate 165 0) (Vec3s 33 5 1)
       (double_of_Z 10) (replicate 165 7) = Some out /\
     length out = length (replicate 165 (7 : sample T_uint8_t))) /\
  (forall bIdx tIdx sm out,
     bIdx ∈ dim3_coords (process_gridSize (Vec3s 33 5 1)) ->
     tIdx ∈ dim3_coords process_blockSize ->
     vec3s_lt (thread_coord (MkThreadCtx process_blockSize bIdx tIdx))
       (Vec3s 33 5 1) = false ->
     processKernel_setup T_uint8_t (MkThreadCtx process_blockSize bIdx tIdx)
       (replicate 165 0) (Vec3s 33 5 1) sm = Some (sm, []) /\
     processKernel_body T_uint8_t T_uint8_t
       (MkThreadCtx process_blockSize bIdx tIdx) (replicate 165 0)
       (Vec3s 33 5 1) (double_to_WorkType (double_of_Z 10)) sm out
       = Some (out, [])) /\
  (forall t sm sm' tr i,
     processKernel_setup T_uint8_t t (replicate 165 0) (Vec3s 33 5 1) sm
       = Some (sm', tr) ->
     GlobalRead i ∈ tr ->
     vec3s_lt (dim3_vec (threadIdx t)) (dim3_vec (blockDim t)) = true /\
     vec3s_lt (vec3s_add (tile_origin (blockDim t) (blockIdx t))
                 (dim3_vec (threadIdx t))) (Vec3s 33 5 1) = true /\
     i = Buffer3_offset (Vec3s 33 5 1)
           (vec3s_add (tile_origin (blockDim t) (blockIdx t))
              (dim3_vec (threadIdx t))) /\
     0 <= i < 33 * 5 * 1) /\
  (forall t sm out out' tr i,
     buffer_fits out (Vec3s 33 5 1) ->
     processKernel_body T_uint8_t T_uint8_t t (replicate 165 0) (Vec3s 33 5 1)
       (double_to_WorkType (double_of_Z 10)) sm out = Some (out', tr) ->
     GlobalRead i ∈ tr \/ GlobalWrite i ∈ tr ->
     0 <= i < 33 * 5 * 1).
Proof.
  assert (geometry_ok (Vec3s 33 5 1)) as Hg by (unfold geometry_ok; cbn; lia).
  split; [exact Hg|]. split; [reflexivity|]. split; [reflexivity|].
  exact (C9_accesses_are_bounds_guarded T_uint8_t T_uint8_t (replicate 165 0)
           (Vec3s 33 5 1) (double_of_Z 10) (replicate 165 7) Hg
           eq_refl eq_refl).
Defined.

(** * Further properties of the launch geometry *)

(** X1.  For extents that fit [unsigned int] the grid of lines 94-97 is the
    smallest one that covers the volume: on each axis the blocks reach the
    extent, and one block fewer would not.  An empty axis gets no block. *)
Theorem X1_grid_is_least_cover (size : vec3s) :
  geometry_ok size ->
  (dim_x process_blockSize * (dim_x (process_gridSize size) - 1) < vec_x size
   <= dim_x process_blockSize * dim_x (process_gridSize size)) /\
  (dim_y process_blockSize * (dim_y (process_gridSize size) - 1) < vec_y size
   <= dim_y process_blockSize * dim_y (process_gridSize size)) /\
  (dim_z process_blockSize * (dim_z (process_gridSize size) - 1) < vec_z size
   <= dim_z process_blockSize * dim_z (process_gridSize size)) /\
  (dim_x (process_gridSize size) = 0 <-> vec_x size = 0) /\
  (dim_y (process_gridSize size) = 0 <-> vec_y size = 0) /\
  (dim_z (process_gridSize size) = 0 <-> vec_z size = 0).
Proof.
  intros Hg. rewrite process_gridSize_small by exact Hg.
  destruct Hg as (Hx & Hy & Hz & _).
  cbn [process_blockSize dim_x dim_y dim_z].
  pose proof (Z.div_mod (vec_x size + 31) 32 ltac:(lia)) as Ex.
  pose proof (Z.mod_pos_bound (vec_x size + 31) 32 ltac:(lia)) as Mx.
  pose proof (Z.div_mod (vec_y size + 3) 4 ltac:(lia)) as Ey.
  pose proof (Z.mod_pos_bound (vec_y size + 3) 4 ltac:(lia)) as My.
  repeat split; lia.
Qed.

Lemma X1_witness :
  geometry_ok (Vec3s 33 5 0) /\
  (dim_x process_blockSize * (dim_x (process_gridSize (Vec3s 33 5 0)) - 1) < 33
   <= dim_x process_blockSize * dim_x (process_gridSize (Vec3s 33 5 0))) /\
  (dim_y process_blockSize * (dim_y (process_gridSize (Vec3s 33 5 0)) - 1) < 5
   <= dim_y process_blockSize * dim_y (process_gridSize (Vec3s 33 5 0))) /\
  (dim_z process_blockSize * (dim_z (process_gridSize (Vec3s 33 5 0)) - 1) < 0
   <= dim_z process_blockSize * dim_z (process_gridSize (Vec3s 33 5 0))) /\
  (dim_x (process_gridSize (Vec3s 33 5 0)) = 0 <-> 33 = 0) /\
  (dim_y (process_gridSize (Vec3s 33 5 0)) = 0 <-> 5 = 0) /\
  (dim_z (process_gridSize (Vec3s 33 5 0)) = 0 <-> 0 = 0).
Proof.
  assert (geometry_ok (Vec3s 33 5 0)) as Hg by (unfold geometry_ok; cbn; lia).
  split; [exact Hg|]. exact (X1_grid_is_least_cover (Vec3s 33 5 0) Hg).
Defined.

(** * Further properties of the thresholding *)

Lemma SFgeb_nan_r (a : spec_float) : SFgeb a S754_nan = false.
Proof. destruct a; reflexivity. Qed.

Lemma threshold_pixel_nan_threshold (InputType OutputType : SampleType)
    (t : WorkType) (v : sample InputType) :
  is_nan t = true ->
  threshold_pixel InputType OutputType t v = sample_zero OutputType.
Proof.
  destruct t; try discriminate. intros _. unfold threshold_pixel.
  rewrite threshold_value_zero by apply SFgeb_nan_r. apply clampCast_zero.
Qed.

Lemma threshold_pixel_nan_sample (InputType OutputType : SampleType)
    (t : WorkType) (v : sample InputType) :
  is_nan (to_WorkType InputType v) = true ->
  threshold_pixel InputType OutputType t v = sample_zero OutputType.
Proof.
  intros Hn. unfold threshold_pixel.
  destruct (to_WorkType InputType v); try discriminate.
  apply clampCast_zero.
Qed.

(** X2.  A threshold that is NaN zeroes the whole volume: the test at line 55
    fails for every sample. *)
Theorem X2_nan_threshold_zeroes_everything (InputType OutputType : SampleType)
    (inputImage : list (sample InputType)) (size : vec3s) (threshold : double)
    (outputImage : list (sample OutputType)) :
  geometry_ok size -> buffer_fits inputImage size ->
  buffer_fits outputImage size ->
  is_nan threshold = true ->
  stage_kernel InputType OutputType inputImage size threshold outputImage
  = Some (replicate (length inputImage) (sample_zero OutputType)).
Proof.
  intros Hg Hin Hout Hn. rewrite stage_kernel_correct by auto. f_equal.
  assert (is_nan (double_to_WorkType threshold) = true) as Hn'
    by (destruct threshold; try discriminate; reflexivity).
  apply list_eq. intros i. rewrite list_lookup_fmap.
  destruct (inputImage !! i) as [v|] eqn:Hi; cbn.
  - rewrite threshold_pixel_nan_threshold by exact Hn'.
    symmetry. apply lookup_replicate_2. eapply lookup_lt_Some, Hi.
  - symmetry. apply lookup_replicate_None. apply lookup_ge_None in Hi. lia.
Qed.

Lemma X2_witness :
  geometry_ok (Vec3s 2 1 1) /\
  buffer_fits ([50; -5] : list (sample T_int16_t)) (Vec3s 2 1 1) /\
  buffer_fits ([7; 7] : list (sample T_uint8_t)) (Vec3s 2 1 1) /\
  is_nan S754_nan = true /\
  stage_kernel T_int16_t T_uint8_t [50; -5] (Vec3s 2 1 1) S754_nan [7; 7]
  = Some (replicate (length ([50; -5] : list (sample T_int16_t)))
            (sample_zero T_uint8_t)).
Proof.
  assert (geometry_ok (Vec3s 2 1 1)) as Hg by (unfold geometry_ok; cbn; lia).
  split; [exact Hg|]. do 3 (split; [reflexivity|]).
  exact (X2_nan_threshold_zeroes_everything T_int16_t T_uint8_t [50; -5]
           (Vec3s 2 1 1) S754_nan [7; 7] Hg eq_refl eq_refl eq_refl).
Defined.

(** X3.  A NaN sample never reaches the output: whatever the threshold, the
    voxel is written as zero. *)
Theorem X3_nan_sample_is_zeroed (InputType OutputType : SampleType)
    (inputImage : list (sample InputType)) (size : vec3s) (threshold : double)
    (outputImage : list (sample OutputType)) :
  geometry_ok size -> buffer_fits inputImage size ->
  buffer_fits outputImage size ->
  exists out,
    stage_kernel InputType OutputType inputImage size threshold outputImage
      = Some out /\
    forall i v, inputImage !! i = Some v ->
      is_nan (to_WorkType InputType v) = true ->
      out !! i = Some (sample_zero OutputType).
Proof.
  intros Hg Hin Hout. eexists. split; [apply stage_kernel_correct; auto|].
  intros i v Hi Hn. rewrite list_lookup_fmap, Hi. cbn. f_equal.
  apply threshold_pixel_nan_sample, Hn.
Qed.

Lemma X3_witness :
  geometry_ok (Vec3s 2 1 1) /\
  buffer_fits ([S754_nan; float_of_Z 3] : list (sample T_float)) (Vec3s 2 1 1) /\
  buffer_fits (float_of_Z <$> [7; 7]) (Vec3s 2 1 1) /\
  exists out,
    stage_kernel T_float T_float [S754_nan; float_of_Z 3] (Vec3s 2 1 1)
      (double_of_Z (-1)) (float_of_Z <$> [7; 7]) = Some out /\
    forall i (v : sample T_float),
      ([S754_nan; float_of_Z 3] : list (sample T_float)) !! i = Some v ->
      is_nan (to_WorkType T_float v) = true ->
      out !! i = Some (sample_zero T_float).
Proof.
  assert (geometry_ok (Vec3s 2 1 1)) as Hg by (unfold geometry_ok; cbn; lia).
  split; [exact Hg|]. do 2 (split; [reflexivity|]).
  exact (X3_nan_sample_is_zeroed T_float T_float [S754_nan; float_of_Z 3]
           (Vec3s 2 1 1) (double_of_Z (-1)) (float_of_Z <$> [7; 7]) Hg
           eq_refl eq_refl).
Defined.

(** The order of [SFcompare] is transitive: what is at least the larger of two
    thresholds is at least the smaller. *)
Lemma SFgeb_trans (a t2 t1 : spec_float) :
  SFgeb a t2 = true -> SFleb t1 t2 = true -> SFgeb a t1 = true.
Proof.
  unfold SFgeb, SFleb, SFcompare.
  destruct a as [sa|sa| |sa ma ea], t2 as [s2|s2| |s2 m2 e2],
           t1 as [s1|s1| |s1 m1 e1];
    try discriminate; try reflexivity;
    try destruct sa; try destruct s2; try destruct s1;
    try discriminate; try reflexivity;
    change (Pos.compare_cont Eq) with Pos.compare;
    repeat match goal with
           | |- context [Z.compare ?x ?y] =>
               destruct (Z.compare_spec x y); subst
           | |- context [Pos.compare ?x ?y] =>
               destruct (Pos.compare_spec x y); subst
           end;
    cbn; try discriminate; try reflexivity; intros; exfalso; lia.
Qed.

Lemma threshold_pixel_monotone (InputType OutputType : SampleType)
    (t1 t2 : WorkType) (v : sample InputType) :
  SFleb t1 t2 = true ->
  threshold_pixel InputType OutputType t2 v
    = threshold_pixel InputType OutputType t1 v \/
  threshold_pixel InputType OutputType t2 v = sample_zero OutputType.
Proof.
  intros Hle. unfold threshold_pixel, threshold_value.
  destruct (SFgeb (SFabs (to_WorkType InputType v)) t2) eqn:E2.
  - left. now rewrite (SFgeb_trans _ _ _ E2 Hle).
  - right. apply clampCast_zero.
Qed.

(** X4.  Raising the threshold only zeroes more voxels: with two thresholds
    ordered after narrowing, every voxel of the output for the higher one
    either equals the voxel of the output for the lower one or is zero. *)
Theorem X4_higher_threshold_only_zeroes_more
    (InputType OutputType : SampleType)
    (inputImage : list (sample InputType)) (size : vec3s)
    (lower higher : double) (out1 out2 : list (sample OutputType)) :
  geometry_ok size -> buffer_fits inputImage size ->
  buffer_fits out1 size -> buffer_fits out2 size ->
  SFleb (double_to_WorkType lower) (double_to_WorkType higher) = true ->
  exists kept_low kept_high,
    stage_kernel InputType OutputType inputImage size lower out1
      = Some kept_low /\
    stage_kernel InputType OutputType inputImage size higher out2
      = Some kept_high /\
    forall i, (i < length inputImage)%nat ->
      kept_high !! i = kept_low !! i \/
      kept_high !! i = Some (sample_zero OutputType).
Proof.
  intros Hg Hin H1 H2 Hle.
  eexists _, _. split; [apply stage_kernel_correct; auto|].
  split; [apply stage_kernel_correct; auto|].
  intros i Hi. apply lookup_lt_is_Some_2 in Hi as [v Hv].
  rewrite !list_lookup_fmap, Hv. cbn.
  destruct (threshold_pixel_monotone InputType OutputType _ _ v Hle) as [->| ->];
    auto.
Qed.

Lemma X4_witness :
  geometry_ok (Vec3s 3 1 1) /\
  buffer_fits ([50; -5; 20] : list (sample T_int16_t)) (Vec3s 3 1 1) /\
  buffer_fits ([7; 7; 7] : list (sample T_int16_t)) (Vec3s 3 1 1) /\
  SFleb (double_to_WorkType (double_of_Z 10))
    (double_to_WorkType (double_of_Z 30)) = true /\
  exists kept_low kept_high,
    stage_kernel T_int16_t T_int16_t [50; -5; 20] (Vec3s 3 1 1)
      (double_of_Z 10) [7; 7; 7] = Some kept_low /\
    stage_kernel T_int16_t T_int16_t [50; -5; 20] (Vec3s 3 1 1)
      (double_of_Z 30) [7; 7; 7] = Some kept_high /\
    forall i, (i < 3)%nat ->
      kept_high !! i = kept_low !! i \/
      kept_high !! i = Some (sample_zero T_int16_t).
Proof.
  assert (geometry_ok (Vec3s 3 1 1)) as Hg by (unfold geometry_ok; cbn; lia).
  split; [exact Hg|]. do 3 (split; [reflexivity|]).
  exact (X4_higher_threshold_only_zeroes_more T_int16_t T_int16_t [50; -5; 20]
           (Vec3s 3 1 1) (double_of_Z 10) (double_of_Z 30) [7; 7; 7] [7; 7; 7]
           Hg eq_refl eq_refl eq_refl eq_refl).
Defined.

Lemma roundtrip_int (T : SampleType) (v : sample T) :
  T <> T_float -> sample_ok T v = true ->
  clampCast T (to_WorkType T v) = v /\ is_nan (to_WorkType T v) = false.
Proof.
  intros HT Hv. destruct T; [| |congruence]; cbn in Hv |- *;
    apply andb_true_iff in Hv as [H1%Z.leb_le H2%Z.leb_le].
  - apply roundtrip_uint8_t. lia.
  - apply roundtrip_int16_t. lia.
Qed.

Lemma threshold_pixel_int_keep_or_zero (T : SampleType) (t : WorkType)
    (v : sample T) :
  T <> T_float -> sample_ok T v = true ->
  threshold_pixel T T t v = v \/ threshold_pixel T T t v = sample_zero T.
Proof.
  intros HT Hv. unfold threshold_pixel, threshold_value.
  destruct (SFgeb _ t).
  - left. apply roundtrip_int; auto.
  - right. apply clampCast_zero.
Qed.

Lemma sample_zero_ok (T : SampleType) : sample_ok T (sample_zero T) = true.
Proof. destruct T; reflexivity. Qed.

Lemma threshold_pixel_int_idem (T : SampleType) (t : WorkType) (v : sample T) :
  T <> T_float -> sample_ok T v = true ->
  threshold_pixel T T t (threshold_pixel T T t v) = threshold_pixel T T t v.
Proof.
  intros HT Hv.
  assert (threshold_pixel T T t (sample_zero T) = sample_zero T) as Hz.
  { destruct (threshold_pixel_int_keep_or_zero T t (sample_zero T) HT
                (sample_zero_ok T)); auto. }
  destruct (threshold_pixel_int_keep_or_zero T t v HT Hv) as [E|E];
    rewrite E; [exact E|exact Hz].
Qed.

(** X5.  With one integer sample type on both sides, whatever the threshold,
    the launch keeps a sample as it is or writes zero, never another value,
    and a second run on its own output changes nothing. *)
Theorem X5_integer_filter_keeps_or_zeroes (T : SampleType)
    (inputImage : list (sample T)) (size : vec3s) (threshold : double)
    (out1 out2 : list (sample T)) :
  T <> T_float ->
  geometry_ok size -> buffer_fits inputImage size ->
  buffer_fits out1 size -> buffer_fits out2 size ->
  Forall (fun v => sample_ok T v = true) inputImage ->
  exists out,
    stage_kernel T T inputImage size threshold out1 = Some out /\
    (forall i v, inputImage !! i = Some v ->
       out !! i = Some v \/ out !! i = Some (sample_zero T)) /\
    stage_kernel T T out size threshold out2 = Some out.
Proof.
  intros HT Hg Hin H1 H2 Hok. rewrite Forall_forall in Hok.
  eexists. split; [apply stage_kernel_correct; auto|]. split.
  - intros i v Hi. rewrite list_lookup_fmap, Hi. cbn.
    destruct (threshold_pixel_int_keep_or_zero T
                (double_to_WorkType threshold) v HT) as [->| ->]; auto.
    apply Hok. eapply list_elem_of_lookup_2, Hi.
  - rewrite stage_kernel_correct; auto.
    + f_equal. rewrite <- list_fmap_compose. apply list_fmap_ext.
      intros i v Hi. cbn [compose]. apply threshold_pixel_int_idem; auto.
      apply Hok. eapply list_elem_of_lookup_2, Hi.
    + unfold buffer_fits in *. now rewrite length_fmap.
Qed.

Lemma X5_witness :
  T_int16_t <> T_float /\
  geometry_ok (Vec3s 3 1 1) /\
  buffer_fits ([50; -5; 20] : list (sample T_int16_t)) (Vec3s 3 1 1) /\
  buffer_fits ([7; 7; 7] : list (sample T_int16_t)) (Vec3s 3 1 1) /\
  Forall (fun v => sample_ok T_int16_t v = true)
    ([50; -5; 20] : list (sample T_int16_t)) /\
  exists out,
    stage_kernel T_int16_t T_int16_t [50; -5; 20] (Vec3s 3 1 1)
      (double_of_Z 30) [7; 7; 7] = Some out /\
    (forall i (v : sample T_int16_t),
       ([50; -5; 20] : list (sample T_int16_t)) !! i = Some v ->
       out !! i = Some v \/ out !! i = Some (sample_zero T_int16_t)) /\
    stage_kernel T_int16_t T_int16_t out (Vec3s 3 1 1) (double_of_Z 30)
      [7; 7; 7] = Some out.
Proof.
  assert (T_int16_t <> T_float) as HT by discriminate.
  assert (geometry_ok (Vec3s 3 1 1)) as Hg by (unfold geometry_ok; cbn; lia).
  assert (Forall (fun v => sample_ok T_int16_t v = true)
            ([50; -5; 20] : list (sample T_int16_t))) as Hok
    by (repeat constructor).
  split; [exact HT|]. split; [exact Hg|]. do 2 (split; [reflexivity|]).
  split; [exact Hok|].
  exact (X5_integer_filter_keeps_or_zeroes T_int16_t [50; -5; 20]
           (Vec3s 3 1 1) (double_of_Z 30) [7; 7; 7] [7; 7; 7] HT Hg
           eq_refl eq_refl eq_refl Hok).
Defined.

(** * Further properties of the launch *)

(** For the threads the driver launches the coordinates of lines 31-33 do not
    wrap. *)
Lemma thread_coord_exact (size : vec3s) (bIdx tIdx : dim3) :
  geometry_ok size ->
  bIdx ∈ dim3_coords (process_gridSize size) ->
  tIdx ∈ dim3_coords process_blockSize ->
  thread_coord (MkThreadCtx process_blockSize bIdx tIdx)
  = Vec3s (32 * dim_x bIdx + dim_x tIdx) (4 * dim_y bIdx + dim_y tIdx)
          (1 * dim_z bIdx + dim_z tIdx).
Proof.
  intros Hg Hb Ht. rewrite process_gridSize_small in Hb by exact Hg.
  destruct Hg as (Hx & Hy & Hz & _).
  apply elem_of_dim3_coords in Hb, Ht.
  cbn [dim_x dim_y dim_z process_blockSize] in Hb, Ht.
  destruct Hb as (Bx & By & Bz), Ht as (Tx & Ty & Tz).
  pose proof (Z.div_mod (vec_x size + 31) 32 ltac:(lia)) as Ex.
  pose proof (Z.mod_pos_bound (vec_x size + 31) 32 ltac:(lia)) as Mx.
  pose proof (Z.div_mod (vec_y size + 3) 4 ltac:(lia)) as Ey.
  pose proof (Z.mod_pos_bound (vec_y size + 3) 4 ltac:(lia)) as My.
  unfold thread_coord, process_blockSize.
  cbn [dim_x dim_y dim_z blockDim blockIdx threadIdx].
  rewrite !u32_small by lia. reflexivity.
Qed.

(** X6.  No two threads of the launch write the same output element: two
    launched threads whose coordinates are inside the volume and whose output
    offsets coincide are the same thread of the same block. *)
Theorem X6_output_writes_do_not_collide (size : vec3s)
    (bIdx tIdx bIdx' tIdx' : dim3) :
  geometry_ok size ->
  bIdx ∈ dim3_coords (process_gridSize size) ->
  tIdx ∈ dim3_coords process_blockSize ->
  bIdx' ∈ dim3_coords (process_gridSize size) ->
  tIdx' ∈ dim3_coords process_blockSize ->
  vec3s_lt (thread_coord (MkThreadCtx process_blockSize bIdx tIdx)) size
    = true ->
  vec3s_lt (thread_coord (MkThreadCtx process_blockSize bIdx' tIdx')) size
    = true ->
  Buffer3_offset size (thread_coord (MkThreadCtx process_blockSize bIdx tIdx))
  = Buffer3_offset size
      (thread_coord (MkThreadCtx process_blockSize bIdx' tIdx')) ->
  bIdx = bIdx' /\ tIdx = tIdx'.
Proof.
  intros Hg Hb Ht Hb' Ht' Hin Hin' Hoff.
  pose proof (thread_coord_range (MkThreadCtx process_blockSize bIdx tIdx))
    as (Rx & Ry & Rz).
  pose proof (thread_coord_range (MkThreadCtx process_blockSize bIdx' tIdx'))
    as (Rx' & Ry' & Rz').
  apply Buffer3_offset_inj in Hoff; try lia; try assumption;
    [|apply Hg].
  rewrite (thread_coord_exact size bIdx tIdx Hg Hb Ht) in Hoff.
  rewrite (thread_coord_exact size bIdx' tIdx' Hg Hb' Ht') in Hoff.
  injection Hoff as Ex Ey Ez.
  apply elem_of_dim3_coords in Ht, Ht'.
  cbn [dim_x dim_y dim_z process_blockSize] in Ht, Ht'.
  destruct bIdx as [bx by_ bz], tIdx as [tx ty tz],
           bIdx' as [bx' by' bz'], tIdx' as [tx' ty' tz'].
  cbn [dim_x dim_y dim_z] in *.
  split; f_equal; lia.
Qed.

Lemma X6_witness :
  geometry_ok (Vec3s 33 5 1) /\
  Dim3 1 1 0 ∈ dim3_coords (process_gridSize (Vec3s 33 5 1)) /\
  Dim3 0 0 0 ∈ dim3_coords process_blockSize /\
  vec3s_lt (thread_coord (MkThreadCtx process_blockSize (Dim3 1 1 0) (Dim3 0 0 0)))
    (Vec3s 33 5 1) = true /\
  Buffer3_offset (Vec3s 33 5 1)
    (thread_coord (MkThreadCtx process_blockSize (Dim3 1 1 0) (Dim3 0 0 0)))
  = Buffer3_offset (Vec3s 33 5 1)
      (thread_coord (MkThreadCtx process_blockSize (Dim3 1 1 0) (Dim3 0 0 0))) /\
  Dim3 1 1 0 = Dim3 1 1 0 /\ Dim3 0 0 0 = Dim3 0 0 0.
Proof.
  assert (geometry_ok (Vec3s 33 5 1)) as Hg by (unfold geometry_ok; cbn; lia).
  assert (Dim3 1 1 0 ∈ dim3_coords (process_gridSize (Vec3s 33 5 1))) as Hb
    by (apply elem_of_dim3_coords; vm_compute; intuition congruence).
  assert (Dim3 0 0 0 ∈ dim3_coords process_blockSize) as Ht
    by (apply elem_of_dim3_coords; vm_compute; intuition congruence).
  split; [exact Hg|]. split; [exact Hb|]. split; [exact Ht|].
  do 2 (split; [reflexivity|]).
  exact (X6_output_writes_do_not_collide (Vec3s 33 5 1) (Dim3 1 1 0)
           (Dim3 0 0 0) (Dim3 1 1 0) (Dim3 0 0 0) Hg Hb Ht Hb Ht
           eq_refl eq_refl eq_refl).
Defined.

(** * Any schedule gives the same output *)

Lemma row_major_is_processKernel (InputType OutputType : SampleType)
    (gridDim blockDim : dim3) (sharedMemorySize : Z)
    (inputImage : list (sample InputType)) (size : vec3s)
    (threshold : WorkType) (outputImage : list (sample OutputType)) :
  processKernel_in_order InputType OutputType blockDim sharedMemorySize
    (row_major gridDim blockDim) inputImage size threshold outputImage
  = processKernel InputType OutputType gridDim blockDim sharedMemorySize
      inputImage size threshold outputImage.
Proof. reflexivity. Qed.

Lemma row_major_ok (gridDim blockDim : dim3) :
  schedule_ok gridDim blockDim (row_major gridDim blockDim).
Proof. split; [reflexivity|]. intros b. split; reflexivity. Qed.

Lemma run_block_in_order_spec (InputType OutputType : SampleType)
    (inputImage : list (sample InputType)) (size : vec3s)
    (threshold : WorkType) (bDim : dim3) (sharedMemorySize : Z)
    (s : Schedule) (bIdx : dim3) (out : list (sample OutputType)) :
  vec_x size * vec_y size * vec_z size < 2 ^ 64 ->
  buffer_fits inputImage size ->
  dim_x bDim * dim_y bDim * dim_z bDim < 2 ^ 64 ->
  dim_x bDim * dim_y bDim * dim_z bDim <= sharedMemorySize / sizeof InputType ->
  copy_order s bIdx ≡ₚ dim3_coords bDim ->
  work_order s bIdx ≡ₚ dim3_coords bDim ->
  buffer_fits out size ->
  exists out',
    run_block_in_order InputType OutputType inputImage size threshold bDim
      sharedMemorySize s out bIdx = Some out' /\
    upd_rel (out_rel InputType OutputType inputImage threshold) out out' /\
    forall tIdx i, tIdx ∈ dim3_coords bDim -> writes size bDim bIdx tIdx i ->
      exists v, out' !! i = Some v /\
                out_rel InputType OutputType inputImage threshold i v.
Proof.
  intros Hvol Hin Htile Hsmem Hcopy Hwork Hout. unfold run_block_in_order.
  set (n := Z.to_nat (sharedMemorySize / sizeof InputType)).
  destruct (fold_opt_upd
              (cell_rel InputType inputImage size bDim (tile_origin bDim bIdx))
              (fills size bDim bIdx)
              (fun sm tIdx =>
                 fst <$> processKernel_setup InputType
                           (MkThreadCtx bDim bIdx tIdx) inputImage size sm)
              n (copy_order s bIdx))
    with (s := replicate n (@None (sample InputType)))
    as (sm & -> & _ & Hfilled).
  { intros tIdx sm Ht Hlen. rewrite Hcopy in Ht.
    apply setup_step; auto.
    rewrite Hlen. unfold n. clear -Hsmem.
    set (q := sharedMemorySize / sizeof InputType) in *.
    set (a := dim_x bDim * dim_y bDim * dim_z bDim) in *.
    clearbody q a. lia. }
  { apply length_replicate. }
  cbn [mbind option_bind].
  assert (forall tIdx' i, tIdx' ∈ dim3_coords bDim ->
            fills size bDim bIdx tIdx' i ->
            exists cell, sm !! i = Some cell /\
              cell_rel InputType inputImage size bDim (tile_origin bDim bIdx)
                i cell) as Hfilled'.
  { intros tIdx' i Ht. apply Hfilled. now rewrite Hcopy. }
  destruct (fold_opt_upd (out_rel InputType OutputType inputImage threshold)
              (writes size bDim bIdx)
              (fun out tIdx =>
                 fst <$> processKernel_body InputType OutputType
                           (MkThreadCtx bDim bIdx tIdx) inputImage size
                           threshold sm out)
              (length out) (work_order s bIdx)) with (s := out)
    as (out' & E & U & C); [|reflexivity|].
  { intros tIdx out1 Ht Hlen. apply body_step; auto.
    unfold buffer_fits in *. congruence. }
  exists out'. split; [exact E|]. split; [exact U|].
  intros tIdx i Ht. apply C. now rewrite Hwork.
Qed.

(** X7.  The output does not depend on the schedule: whatever the order of
    the blocks, and of the threads of each block before and after the
    barrier, the launch leaves what the row-major schedule leaves. *)
Theorem X7_output_is_schedule_independent (InputType OutputType : SampleType)
    (s : Schedule) (inputImage : list (sample InputType)) (size : vec3s)
    (threshold : double) (outputImage : list (sample OutputType)) :
  geometry_ok size -> buffer_fits inputImage size ->
  buffer_fits outputImage size ->
  schedule_ok (process_gridSize size) process_blockSize s ->
  processKernel_in_order InputType OutputType process_blockSize
    (process_sharedMemorySize InputType) s inputImage size
    (double_to_WorkType threshold) outputImage
  = stage_kernel InputType OutputType inputImage size threshold outputImage.
Proof.
  intros Hg Hin Hout [Hblocks Hthreads].
  rewrite stage_kernel_correct by auto.
  pose proof (geometry_ok_volume size Hg) as [Hn0 Hvol].
  unfold processKernel_in_order.
  destruct (fold_opt_upd
              (out_rel InputType OutputType inputImage
                 (double_to_WorkType threshold))
              (fun bIdx i => exists tIdx,
                 tIdx ∈ dim3_coords process_blockSize /\
                 writes size process_blockSize bIdx tIdx i)
              (run_block_in_order InputType OutputType inputImage size
                 (double_to_WorkType threshold) process_blockSize
                 (process_sharedMemorySize InputType) s)
              (length outputImage) (block_order s)) with (s := outputImage)
    as (out' & -> & [Hlen _] & C); [|reflexivity|].
  - intros bIdx out1 Hb Hlen1.
    destruct (run_block_in_order_spec InputType OutputType inputImage size
                (double_to_WorkType threshold) process_blockSize
                (process_sharedMemorySize InputType) s bIdx out1)
      as (out2 & E & U & C); auto.
    + vm_compute. reflexivity.
    + apply process_sharedMemorySize_fits.
    + apply Hthreads.
    + apply Hthreads.
    + unfold buffer_fits in *. congruence.
    + exists out2. split; [exact E|]. split; [exact U|].
      intros i (tIdx & Ht & Hw). eauto.
  - f_equal. apply list_eq. intros i. rewrite list_lookup_fmap.
    destruct (decide (i < length inputImage)%nat) as [Hi|Hi].
    + destruct (voxel_of_offset InputType inputImage size Hvol Hin
                  ltac:(destruct Hg as (? & ? & ? & _); lia) (Z.of_nat i))
        as (p & Px & Py & Pz & Hp & Ep).
      { rewrite Hin in Hi. lia. }
      destruct (process_grid_covers size Hg p Px Py Pz Hp)
        as (bIdx & tIdx & Hb & Ht & Et).
      destruct (C bIdx i) as (v & -> & u & -> & ->).
      { now rewrite Hblocks. }
      { exists tIdx. split; [exact Ht|]. unfold writes. rewrite Et.
        split; [exact Hp|]. rewrite Ep. lia. }
      reflexivity.
    + rewrite !(proj2 (lookup_ge_None _ _)); [reflexivity|lia|].
      rewrite Hlen, Hout, <- Hin. lia.
Qed.

(** * An input shorter than the geometry *)

Lemma fold_opt_fails {A S} (f : S -> A -> option S) (l : list A) (a : A) :
  a ∈ l -> (forall s, f s a = None) -> forall s, fold_opt f l s = None.
Proof.
  intros Ha Hf. induction l as [|b l IH]; intros s; [inversion Ha|].
  cbn [fold_opt]. destruct (f s b) as [s'|] eqn:E; [|reflexivity].
  apply elem_of_cons in Ha as [->|Ha]; [congruence|]. now apply IH.
Qed.

(** X8.  The kernel trusts the geometry it is given: when the input buffer
    holds fewer elements than [width*height*depth], the thread of the first
    missing voxel reads past the end of the buffer and the launch faults. *)
Theorem X8_short_input_is_read_out_of_bounds
    (InputType OutputType : SampleType)
    (inputImage : list (sample InputType)) (size : vec3s) (threshold : double)
    (outputImage : list (sample OutputType)) :
  geometry_ok size ->
  (length inputImage < Z.to_nat (vec_x size * vec_y size * vec_z size))%nat ->
  stage_kernel InputType OutputType inputImage size threshold outputImage
  = None.
Proof.
  intros Hg Hshort.
  pose proof (geometry_ok_volume size Hg) as [Hn0 Hvol].
  destruct (voxel_of_offset T_uint8_t
              (replicate (Z.to_nat (vec_x size * vec_y size * vec_z size)) 0)
              size Hvol ltac:(apply length_replicate)
              ltac:(destruct Hg as (? & ? & ? & _); lia)
              (Z.of_nat (length inputImage)))
    as (p & Px & Py & Pz & Hp & Ep); [lia|].
  destruct (process_grid_covers size Hg p Px Py Pz Hp)
    as (bIdx & tIdx & Hb & Ht & Et).
  unfold stage_kernel, processKernel.
  apply (fold_opt_fails _ _ bIdx Hb). intros out. unfold run_block.
  rewrite (fold_opt_fails _ _ tIdx Ht); [reflexivity|].
  intros sm. unfold processKernel_setup, CachedBuffer3_fill, inputBuffer_of.
  cbn [m_buffer m_size m_cacheSize m_cacheOffset blockDim blockIdx threadIdx].
  fold (dim3_vec tIdx) (dim3_vec process_blockSize)
       (tile_origin process_blockSize bIdx).
  rewrite (thread_coord_in_grid size bIdx tIdx Hg Hb Ht), Et, Hp.
  assert (vec3s_lt (dim3_vec tIdx) (dim3_vec process_blockSize) = true) as ->.
  { apply elem_of_dim3_coords in Ht. apply vec3s_lt_spec. cbn in *. lia. }
  cbn [andb]. unfold load. rewrite Ep, Nat2Z.id.
  rewrite (proj2 (lookup_ge_None _ _)) by lia. reflexivity.
Qed.

Lemma X8_witness :
  geometry_ok (Vec3s 3 1 1) /\
  (2 < Z.to_nat (3 * 1 * 1))%nat /\
  stage_kernel T_int16_t T_uint8_t [50; -5] (Vec3s 3 1 1) (double_of_Z 10)
    [7; 7; 7] = None.
Proof.
  assert (geometry_ok (Vec3s 3 1 1)) as Hg by (unfold geometry_ok; cbn; lia).
  assert (2 < Z.to_nat (3 * 1 * 1))%nat as Hs by (cbn; lia).
  split; [exact Hg|]. split; [exact Hs|].
  exact (X8_short_input_is_read_out_of_bounds T_int16_t T_uint8_t [50; -5]
           (Vec3s 3 1 1) (double_of_Z 10) [7; 7; 7] Hg Hs).
Defined.

(** * Further properties of the driver *)

(** [process] in one statement, whatever the residency of the input. *)
Lemma process_spec (InputType OutputType : SampleType)
    (junk : nat -> sample OutputType) (imageData : shared_ptr) (size : vec3s)
    (threshold : double) (w : World) (c : Container InputType) :
  deref InputType (objects w) imageData = Some c ->
  exists inImageData input outImageData objs ev,
    process InputType OutputType junk imageData size threshold w
    = Some (outImageData,
        MkWorld
          (<[outImageData := existT OutputType
               (Container_alloc OutputType LocationGpu (c_stream c)
                  (process_numel size) junk)]> objs)
          (pending w ++
             [(c_stream c,
               process_launch InputType OutputType inImageData size threshold
                 outImageData)])
          (events w ++ ev)) /\
    deref InputType objs inImageData = Some input /\
    c_buffer input = c_buffer c /\
    objs !! outImageData = None /\
    (forall q x, objects w !! q = Some x -> objs !! q = Some x) /\
    migrations ev = (if isGPU c || isBoth c then 0 else 1)%nat.
Proof.
  intros Hc.
  destruct (decide (c_location c = LocationHost)) as [Hloc|Hloc].
  - rewrite (process_host _ _ junk _ size threshold _ c Hc Hloc). cbn zeta.
    set (p1 := fresh (dom (objects w))).
    set (objs1 := <[p1 := existT InputType (Container_copy LocationGpu c)]> (objects w)).
    assert (objects w !! p1 = None) as F1 by apply fresh_unused.
    exists p1, (Container_copy LocationGpu c), (fresh (dom objs1)), objs1,
      [EvMigrate imageData p1;
       EvAllocate (fresh (dom objs1)) (process_numel size);
       EvLaunch (c_stream c)
         (process_launch InputType OutputType p1 size threshold
            (fresh (dom objs1)))].
    split; [rewrite <- !app_assoc; reflexivity|].
    split; [apply deref_insert_eq|]. split; [reflexivity|].
    split; [apply fresh_unused|]. split.
    + intros q x Hq. unfold objs1. rewrite lookup_insert_ne; [exact Hq|].
      intros <-. congruence.
    + unfold isGPU, isBoth. rewrite Hloc. reflexivity.
  - rewrite (process_device _ _ junk _ size threshold _ c Hc Hloc). cbn zeta.
    exists imageData, c, (fresh (dom (objects w))), (objects w),
      [EvAllocate (fresh (dom (objects w))) (process_numel size);
       EvLaunch (c_stream c)
         (process_launch InputType OutputType imageData size threshold
            (fresh (dom (objects w))))].
    split; [rewrite <- !app_assoc; reflexivity|].
    split; [exact Hc|]. split; [reflexivity|].
    split; [apply fresh_unused|]. split; [auto|].
    unfold isGPU, isBoth. destruct (c_location c); try reflexivity. congruence.
Qed.

(** X9.  [process] returns before the kernel has run: the output container it
    hands back still holds what the allocator left in it, the launch waits on
    the stream of the input, and draining any other stream changes nothing. *)
Theorem X9_process_does_not_wait (InputType OutputType : SampleType)
    (junk : nat -> sample OutputType) (imageData : shared_ptr) (size : vec3s)
    (threshold : double) (w : World) (c : Container InputType) :
  pending w = [] ->
  deref InputType (objects w) imageData = Some c ->
  exists outImageData w' k,
    process InputType OutputType junk imageData size threshold w
      = Some (outImageData, w') /\
    contents OutputType w' outImageData
      = Some (junk <$> seq 0 (Z.to_nat (process_numel size))) /\
    pending w' = [(getStream c, k)] /\
    k_outputImage k = outImageData /\
    forall stream, stream <> getStream c -> drain stream w' = Some (tt, w').
Proof.
  intros Hq Hc.
  destruct (process_spec InputType OutputType junk imageData size threshold
              w c Hc) as (inPtr & input & out & objs & ev & -> & _).
  eexists _, _, _. split; [reflexivity|].
  unfold contents. cbn [objects pending]. rewrite deref_insert_eq, Hq.
  split; [reflexivity|]. split; [reflexivity|]. split; [reflexivity|].
  intros stream Hs. unfold drain. cbn [objects pending events app drain_queue].
  rewrite decide_False by (unfold getStream in Hs; congruence). reflexivity.
Qed.

Lemma X9_witness :
  pending (world_of host_volume) = [] /\
  deref T_int16_t (objects (world_of host_volume)) 0%nat = Some host_volume /\
  exists outImageData w' k,
    process T_int16_t T_uint8_t (fun _ => 7) 0%nat (Vec3s 2 1 1)
      (double_of_Z 10) (world_of host_volume) = Some (outImageData, w') /\
    contents T_uint8_t w' outImageData
      = Some ((fun _ => 7) <$> seq 0 (Z.to_nat (process_numel (Vec3s 2 1 1)))) /\
    pending w' = [(getStream host_volume, k)] /\
    k_outputImage k = outImageData /\
    forall stream, stream <> getStream host_volume ->
      drain stream w' = Some (tt, w').
Proof.
  split; [reflexivity|]. split; [reflexivity|].
  exact (X9_process_does_not_wait T_int16_t T_uint8_t (fun _ => 7) 0%nat
           (Vec3s 2 1 1) (double_of_Z 10) (world_of host_volume) host_volume
           eq_refl eq_refl).
Defined.

(** X10.  [process] and the launch it enqueues leave every object that
    existed before as it was; the output container sits at an address that
    held nothing. *)
Theorem X10_existing_objects_are_untouched (InputType OutputType : SampleType)
    (junk : nat -> sample OutputType) (imageData : shared_ptr) (size : vec3s)
    (threshold : double) (w : World) (c : Container InputType) :
  deref InputType (objects w) imageData = Some c ->
  exists outImageData w' k,
    process InputType OutputType junk imageData size threshold w
      = Some (outImageData, w') /\
    pending w' = pending w ++ [(getStream c, k)] /\
    objects w !! outImageData = None /\
    forall q x, objects w !! q = Some x ->
      objects w' !! q = Some x /\
      forall objs, run_launch k (objects w') = Some objs -> objs !! q = Some x.
Proof.
  intros Hc.
  destruct (process_spec InputType OutputType junk imageData size threshold
              w c Hc)
    as (inPtr & input & out & objs & ev & -> & _ & _ & Hfresh & Hkeep & _).
  eexists _, _, _. split; [reflexivity|]. cbn [objects pending].
  split; [reflexivity|].
  assert (objects w !! out = None) as Hnew.
  { destruct (objects w !! out) as [x|] eqn:E; [|reflexivity].
    apply Hkeep in E. congruence. }
  split; [exact Hnew|]. intros q x Hq.
  assert (out <> q) as Hne by (intros ->; congruence).
  assert ((<[out := existT OutputType
                      (Container_alloc OutputType LocationGpu (c_stream c)
                         (process_numel size) junk)]> objs) !! q = Some x) as Hq'.
  { rewrite lookup_insert_ne by exact Hne. apply Hkeep, Hq. }
  split; [exact Hq'|]. intros objs' Hrun.
  rewrite (run_launch_frame _ _ _ q Hrun); [exact Hq'|].
  cbn [process_launch k_outputImage]. congruence.
Qed.

Lemma X10_witness :
  deref T_int16_t (objects (world_of host_volume)) 0%nat = Some host_volume /\
  exists outImageData w' k,
    process T_int16_t T_uint8_t (fun _ => 7) 0%nat (Vec3s 2 1 1)
      (double_of_Z 10) (world_of host_volume) = Some (outImageData, w') /\
    pending w' = pending (world_of host_volume) ++ [(getStream host_volume, k)] /\
    objects (world_of host_volume) !! outImageData = None /\
    forall q x, objects (world_of host_volume) !! q = Some x ->
      objects w' !! q = Some x /\
      forall objs, run_launch k (objects w') = Some objs -> objs !! q = Some x.
Proof.
  split; [reflexivity|].
  exact (X10_existing_objects_are_untouched T_int16_t T_uint8_t (fun _ => 7)
           0%nat (Vec3s 2 1 1) (double_of_Z 10) (world_of host_volume)
           host_volume eq_refl).
Defined.

(** * Two stages on one stream *)

Local Ltac ne := solve [assumption | apply not_eq_sym; assumption].

Lemma buffer_fits_fmap {A B} (f : A -> B) (l : list A) (size : vec3s) :
  buffer_fits l size -> buffer_fits (f <$> l) size.
Proof. unfold buffer_fits. now rewrite length_fmap. Qed.

(** X11.  Stages chain without synchronisation in between.  A second stage
    given the not yet computed output of a first one reads it in place (it is
    accelerator-resident, so nothing is copied), its launch lands on the same
    stream behind the first, and one drain of that stream leaves the
    composition of the two thresholdings in the final container. *)
Theorem X11_two_stages_compose (T1 T2 T3 : SampleType)
    (junk1 : nat -> sample T2) (junk2 : nat -> sample T3)
    (imageData : shared_ptr) (size : vec3s) (threshold1 threshold2 : double)
    (w : World) (c : Container T1) :
  pending w = [] ->
  deref T1 (objects w) imageData = Some c ->
  geometry_ok size -> buffer_fits (c_buffer c) size ->
  exists middle outImageData w',
    process_twice T1 T2 T3 junk1 junk2 imageData size threshold1 threshold2 w
      = Some ((middle, outImageData), w') /\
    contents T2 w' middle
      = Some (threshold_pixel T1 T2 (double_to_WorkType threshold1)
                <$> c_buffer c) /\
    contents T3 w' outImageData
      = Some (threshold_pixel T2 T3 (double_to_WorkType threshold2)
                <$> (threshold_pixel T1 T2 (double_to_WorkType threshold1)
                       <$> c_buffer c)) /\
    pending w' = [] /\
    migrations (events w')
      = (migrations (events w) + (if isGPU c || isBoth c then 0 else 1))%nat /\
    objects w' !! imageData = objects w !! imageData.
Proof.
  intros Hq Hc Hg Hfit.
  pose proof (deref_Some_lookup _ _ _ _ Hc) as Hlook.
  unfold process_twice, bind at 1, get_object. rewrite Hc. unfold bind at 1.
  destruct (process_spec T1 T2 junk1 imageData size threshold1 w c Hc)
    as (inPtr & input & mid & objs & ev & -> & Hin & Hbuf & Hmid & Hkeep & Hmig).
  set (A1 := Container_alloc T2 LocationGpu (c_stream c) (process_numel size) junk1).
  set (objs1 := <[mid := existT T2 A1]> objs).
  set (w1 := MkWorld objs1 _ _).
  assert (deref T2 (objects w1) mid = Some A1) as Hmid1 by apply deref_insert_eq.
  unfold bind at 1.
  rewrite (process_device T2 T3 junk2 mid size threshold2 w1 A1 Hmid1)
    by discriminate.
  cbn zeta. cbn [objects pending events w1 c_stream A1 Container_alloc].
  set (out := fresh (dom objs1)).
  set (A2 := Container_alloc T3 LocationGpu (c_stream c) (process_numel size) junk2).
  assert (objs1 !! out = None) as Hout by apply fresh_unused.
  assert (mid <> out) as Nmo.
  { intros E. rewrite <- E in Hout. unfold objs1 in Hout.
    rewrite lookup_insert_eq in Hout. discriminate. }
  pose proof (deref_Some_lookup _ _ _ _ Hin) as Hinl.
  pose proof (lookup_used_unused _ _ _ _ Hinl Hmid) as Nim.
  assert (objs1 !! inPtr = Some (existT T1 input)) as Hinl1.
  { unfold objs1. rewrite lookup_insert_ne; [exact Hinl|]. auto. }
  pose proof (lookup_used_unused _ _ _ _ Hinl1 Hout) as Nio.
  pose proof (Hkeep _ _ Hlook) as Hlook0.
  pose proof (lookup_used_unused _ _ _ _ Hlook0 Hmid) as Ndm.
  assert (objs1 !! imageData = Some (existT T1 c)) as Hlook1.
  { unfold objs1. rewrite lookup_insert_ne; [exact Hlook0|]. auto. }
  pose proof (lookup_used_unused _ _ _ _ Hlook1 Hout) as Ndo.
  unfold bind, drain, getStream. cbn [objects pending events].
  rewrite Hq. cbn [app drain_queue]. rewrite decide_True by reflexivity.
  rewrite (run_process_launch T1 T2 inPtr mid size threshold1 _ input A1).
  2:{ rewrite deref_insert_ne by ne. unfold objs1.
      rewrite deref_insert_ne by ne. exact Hin. }
  2:{ rewrite deref_insert_ne by ne. apply deref_insert_eq. }
  2:{ exact Hg. }
  2:{ unfold buffer_fits in *. congruence. }
  2:{ apply Container_alloc_fits, Hg. }
  cbn [mbind option_bind]. rewrite decide_True by reflexivity.
  set (B1 := MkContainer (c_location A1) (c_stream A1) _).
  rewrite (run_process_launch T2 T3 mid out size threshold2 _ B1 A2).
  2:{ apply deref_insert_eq. }
  2:{ rewrite deref_insert_ne by ne. apply deref_insert_eq. }
  2:{ exact Hg. }
  2:{ unfold B1. cbn [c_buffer]. apply buffer_fits_fmap.
      unfold buffer_fits in *. congruence. }
  2:{ apply Container_alloc_fits, Hg. }
  cbn [mbind option_bind drain_queue ret].
  eexists _, _, _. split; [reflexivity|].
  unfold contents. cbn [objects pending events].
  split.
  { rewrite deref_insert_ne by ne. rewrite deref_insert_eq.
    unfold B1. cbn [fmap option_fmap option_map c_buffer]. now rewrite Hbuf. }
  split.
  { rewrite deref_insert_eq. unfold B1.
    cbn [fmap option_fmap option_map c_buffer]. now rewrite Hbuf. }
  split; [reflexivity|]. split.
  { rewrite !migrations_app, Hmig.
    cbn [migrations List.filter is_migrate length]. lia. }
  rewrite !lookup_insert_ne by ne. unfold objs1.
  rewrite lookup_insert_ne by ne. rewrite Hlook0. symmetry. exact Hlook.
Qed.

Lemma backwards_ok (gridDim blockDim : dim3) :
  schedule_ok gridDim blockDim (backwards gridDim blockDim).
Proof.
  split; [apply reverse_Permutation|].
  intros b. split; apply reverse_Permutation.
Qed.

Lemma X7_witness :
  geometry_ok (Vec3s 33 5 1) /\
  buffer_fits (replicate 165 (20 : sample T_uint8_t)) (Vec3s 33 5 1) /\
  buffer_fits (replicate 165 (7 : sample T_uint8_t)) (Vec3s 33 5 1) /\
  schedule_ok (process_gridSize (Vec3s 33 5 1)) process_blockSize
    (backwards (process_gridSize (Vec3s 33 5 1)) process_blockSize) /\
  processKernel_in_order T_uint8_t T_uint8_t process_blockSize
    (process_sharedMemorySize T_uint8_t)
    (backwards (process_gridSize (Vec3s 33 5 1)) process_blockSize)
    (replicate 165 20) (Vec3s 33 5 1)
    (double_to_WorkType (double_of_Z 10)) (replicate 165 7)
  = stage_kernel T_uint8_t T_uint8_t (replicate 165 20) (Vec3s 33 5 1)
      (double_of_Z 10) (replicate 165 7).
Proof.
  assert (geometry_ok (Vec3s 33 5 1)) as Hg by (unfold geometry_ok; cbn; lia).
  split; [exact Hg|]. do 2 (split; [reflexivity|]).
  split; [apply backwards_ok|].
  exact (X7_output_is_schedule_independent T_uint8_t T_uint8_t
           (backwards (process_gridSize (Vec3s 33 5 1)) process_blockSize)
           (replicate 165 20) (Vec3s 33 5 1) (double_of_Z 10)
           (replicate 165 7) Hg eq_refl eq_refl
           (backwards_ok _ _)).
Defined.

Lemma X11_witness :
  pending (world_of host_volume) = [] /\
  deref T_int16_t (objects (world_of host_volume)) 0%nat = Some host_volume /\
  geometry_ok (Vec3s 2 1 1) /\
  buffer_fits (c_buffer host_volume) (Vec3s 2 1 1) /\
  exists middle outImageData w',
    process_twice T_int16_t T_float T_uint8_t (fun _ => S754_nan) (fun _ => 7)
      0%nat (Vec3s 2 1 1) (double_of_Z 10) (double_of_Z 60)
      (world_of host_volume) = Some ((middle, outImageData), w') /\
    contents T_float w' middle
      = Some (threshold_pixel T_int16_t T_float
                (double_to_WorkType (double_of_Z 10))
                <$> c_buffer host_volume) /\
    contents T_uint8_t w' outImageData
      = Some (threshold_pixel T_float T_uint8_t
                (double_to_WorkType (double_of_Z 60))
                <$> (threshold_pixel T_int16_t T_float
                       (double_to_WorkType (double_of_Z 10))
                       <$> c_buffer host_volume)) /\
    pending w' = [] /\
    migrations (events w')
      = (migrations (events (world_of host_volume))
         + (if isGPU host_volume || isBoth host_volume then 0 else 1))%nat /\
    objects w' !! 0%nat = objects (world_of host_volume) !! 0%nat.
Proof.
  assert (geometry_ok (Vec3s 2 1 1)) as Hg by (unfold geometry_ok; cbn; lia).
  do 2 (split; [reflexivity|]). split; [exact Hg|]. split; [reflexivity|].
  exact (X11_two_stages_compose T_int16_t T_float T_uint8_t (fun _ => S754_nan)
           (fun _ => 7) 0%nat (Vec3s 2 1 1) (double_of_Z 10) (double_of_Z 60)
           (world_of host_volume) host_volume eq_refl eq_refl Hg eq_refl).
Defined.

(** * The kernel under any launch configuration *)

(** X12.  Whatever grid and block shape the kernel is launched with, as long
    as the scratch memory holds one cell per thread of a block, no thread
    faults, and every output element is either left as it was or holds the
    thresholded input sample of the same offset; the elements of the threads
    inside the volume are written. *)
Theorem X12_kernel_is_safe_for_any_launch (InputType OutputType : SampleType)
    (gridDim blockDim : dim3) (sharedMemorySize : Z)
    (inputImage : list (sample InputType)) (size : vec3s)
    (threshold : WorkType) (outputImage : list (sample OutputType)) :
  vec_x size * vec_y size * vec_z size < 2 ^ 64 ->
  buffer_fits inputImage size -> buffer_fits outputImage size ->
  dim_x blockDim * dim_y blockDim * dim_z blockDim < 2 ^ 64 ->
  dim_x blockDim * dim_y blockDim * dim_z blockDim
    <= sharedMemorySize / sizeof InputType ->
  exists out,
    processKernel InputType OutputType gridDim blockDim sharedMemorySize
      inputImage size threshold outputImage = Some out /\
    length out = length outputImage /\
    (forall i,
       out !! i = outputImage !! i \/
       exists v, inputImage !! i = Some v /\
         out !! i = Some (threshold_pixel InputType OutputType threshold v)) /\
    (forall bIdx tIdx,
       bIdx ∈ dim3_coords gridDim -> tIdx ∈ dim3_coords blockDim ->
       vec3s_lt (thread_coord (MkThreadCtx blockDim bIdx tIdx)) size = true ->
       exists v,
         load inputImage
           (Buffer3_offset size (thread_coord (MkThreadCtx blockDim bIdx tIdx)))
           = Some v /\
         load out
           (Buffer3_offset size (thread_coord (MkThreadCtx blockDim bIdx tIdx)))
           = Some (threshold_pixel InputType OutputType threshold v)).
Proof.
  intros Hvol Hin Hout Htile Hsmem.
  destruct (processKernel_spec InputType OutputType inputImage size threshold
              blockDim Hvol Hin Htile sharedMemorySize Hsmem gridDim
              outputImage Hout) as (out & E & [Hlen Hupd] & Hw).
  exists out. split; [exact E|]. split; [exact Hlen|]. split.
  - intros i. destruct (Hupd i) as [?|(v & Hv & u & Hu & ->)]; [auto|].
    right. eauto.
  - intros bIdx tIdx Hb Ht Hp.
    destruct (Hw bIdx tIdx _ Hb Ht (conj Hp eq_refl)) as (v & Hv & u & Hu & ->).
    exists u. unfold load. auto.
Qed.

Lemma X12_witness :
  3 * 2 * 1 < 2 ^ 64 /\
  buffer_fits ([50; -5; 9; 10; -30; 0] : list (sample T_int16_t)) (Vec3s 3 2 1) /\
  buffer_fits (replicate 6 (7 : sample T_uint8_t)) (Vec3s 3 2 1) /\
  2 * 2 * 1 < 2 ^ 64 /\
  2 * 2 * 1 <= 8 / sizeof T_int16_t /\
  exists out,
    processKernel T_int16_t T_uint8_t (Dim3 1 1 1) (Dim3 2 2 1) 8
      [50; -5; 9; 10; -30; 0] (Vec3s 3 2 1)
      (double_to_WorkType (double_of_Z 10)) (replicate 6 7) = Some out /\
    length out = length (replicate 6 (7 : sample T_uint8_t)) /\
    (forall i,
       out !! i = replicate 6 (7 : sample T_uint8_t) !! i \/
       exists v : sample T_int16_t,
         ([50; -5; 9; 10; -30; 0] : list (sample T_int16_t)) !! i = Some v /\
         out !! i = Some (threshold_pixel T_int16_t T_uint8_t
                            (double_to_WorkType (double_of_Z 10)) v)) /\
    (forall bIdx tIdx,
       bIdx ∈ dim3_coords (Dim3 1 1 1) -> tIdx ∈ dim3_coords (Dim3 2 2 1) ->
       vec3s_lt (thread_coord (MkThreadCtx (Dim3 2 2 1) bIdx tIdx))
         (Vec3s 3 2 1) = true ->
       exists v : sample T_int16_t,
         load ([50; -5; 9; 10; -30; 0] : list (sample T_int16_t))
           (Buffer3_offset (Vec3s 3 2 1)
              (thread_coord (MkThreadCtx (Dim3 2 2 1) bIdx tIdx)))
           = Some v /\
         load out
           (Buffer3_offset (Vec3s 3 2 1)
              (thread_coord (MkThreadCtx (Dim3 2 2 1) bIdx tIdx)))
           = Some (threshold_pixel T_int16_t T_uint8_t
                     (double_to_WorkType (double_of_Z 10)) v)).
Proof.
  split; [cbn; lia|]. do 2 (split; [reflexivity|]). split; [cbn; lia|].
  split; [vm_compute; congruence|].
  exact (X12_kernel_is_safe_for_any_launch T_int16_t T_uint8_t (Dim3 1 1 1)
           (Dim3 2 2 1) 8 [50; -5; 9; 10; -30; 0] (Vec3s 3 2 1)
           (double_to_WorkType (double_of_Z 10)) (replicate 6 7)
           ltac:(cbn; lia) eq_refl eq_refl ltac:(cbn; lia)
           ltac:(vm_compute; congruence)).
Defined.

(** A grid too small for the volume leaves the uncovered elements as the
    allocator left them. *)
Example partial_grid_leaves_junk :
  processKernel T_int16_t T_uint8_t (Dim3 1 1 1) (Dim3 2 2 1) 8
    [50; -5; 9; 10; -30; 0] (Vec3s 3 2 1)
    (double_to_WorkType (double_of_Z 10)) (replicate 6 7)
  = Some [50; 0; 7; 10; 0; 7].
Proof. vm_compute. reflexivity. Qed.
